(** * twodo: a shallow embedding of [app.py]

    The Flask application is a set of route handlers that run parameterised
    SQL statements against PostgreSQL through psycopg2.  The embedding keeps
    that shape:

    - the Python built-ins the handlers call ([str.strip], [str.lower],
      [int]) are functions on [string];
    - a table is the list of its rows in insertion order, a [SERIAL] column
      draws from a sequence counter kept next to the tables;
    - a handler is a computation in a small state-and-exception monad whose
      state holds the committed database, the open connection's working
      copy, the Flask session, the flashed messages and a budget of database
      calls after which the connection raises [OperationalError];
    - the two werkzeug functions are parameters of the development.

    Text is modelled as ASCII: characters above 127 are carried through
    [strip] and [lower] untouched. *)

From Stdlib Require Import ZArith List String Ascii Bool Lia.
From Stdlib Require Import Permutation Sorted.
Import ListNotations.

Local Open Scope Z_scope.
Local Open Scope string_scope.

(* ================================================================== *)
(** ** Python string helpers *)
(* ================================================================== *)

(** [str.isspace] on the ASCII range: TAB, LF, VT, FF, CR, the four
    separators 0x1c-0x1f and the space. *)
Definition is_space (c : ascii) : bool :=
  let n := nat_of_ascii c in
  ((9 <=? n) && (n <=? 13) || (28 <=? n) && (n <=? 32))%nat.

Fixpoint lstrip (s : string) : string :=
  match s with
  | EmptyString => EmptyString
  | String c r => if is_space c then lstrip r else s
  end.

Fixpoint rstrip (s : string) : string :=
  match s with
  | EmptyString => EmptyString
  | String c r =>
      match rstrip r with
      | EmptyString => if is_space c then EmptyString else String c EmptyString
      | r' => String c r'
      end
  end.

(** [s.strip()] *)
Definition strip (s : string) : string := rstrip (lstrip s).

Definition lower_char (c : ascii) : ascii :=
  let n := nat_of_ascii c in
  if ((65 <=? n) && (n <=? 90))%nat then ascii_of_nat (n + 32) else c.

(** [s.lower()] *)
Fixpoint lower (s : string) : string :=
  match s with
  | EmptyString => EmptyString
  | String c r => String (lower_char c) (lower r)
  end.

(** Python truthiness of a [str]: empty is false. *)
Definition truthy_str (s : string) : bool :=
  match s with EmptyString => false | _ => true end.

(** *** [int(s)] for a [str] argument

    Surrounding whitespace is dropped, one sign is allowed, and the digits
    may be grouped by single underscores.  [None] stands for the
    [ValueError] Python raises.  (The interpreter's optional limit on the
    number of digits is not modelled.) *)

Definition digit_val (c : ascii) : option Z :=
  let n := nat_of_ascii c in
  if ((48 <=? n) && (n <=? 57))%nat then Some (Z.of_nat (n - 48)) else None.

Definition is_underscore (c : ascii) : bool := (nat_of_ascii c =? 95)%nat.

(** [digits' acc prev s]: read [s] after at least one digit; [prev] tells
    whether the previous character was an underscore. *)
Fixpoint digits' (acc : Z) (prev_us : bool) (s : string) : option Z :=
  match s with
  | EmptyString => if prev_us then None else Some acc
  | String c r =>
      match digit_val c with
      | Some d => digits' (10 * acc + d) false r
      | None =>
          if is_underscore c && negb prev_us then digits' acc true r else None
      end
  end.

Definition digits (s : string) : option Z :=
  match s with
  | EmptyString => None
  | String c r =>
      match digit_val c with
      | Some d => digits' d false r
      | None => None
      end
  end.

Definition py_int (s : string) : option Z :=
  match strip s with
  | String "+" r => digits r
  | String "-" r => option_map Z.opp (digits r)
  | t => digits t
  end.

(* ================================================================== *)
(** ** Data model: the tables created by [init_db] *)
(* ================================================================== *)

(** [users]: [partner_id INTEGER] is nullable and carries no foreign key. *)
Record users_row := mk_user {
  users_id : Z;
  users_username : string;
  users_password : string;
  users_display_name : string;
  users_partner_id : option Z
}.

(** [todos]: [done INTEGER DEFAULT 0]. *)
Record todos_row := mk_todo {
  todos_id : Z;
  todos_user_id : Z;
  todos_text : string;
  todos_done : Z;
  todos_created_at : Z
}.

Record moods_row := mk_mood {
  moods_id : Z;
  moods_user_id : Z;
  moods_score : Z;
  moods_note : string;
  moods_created_at : Z
}.

Record notes_row := mk_note {
  notes_id : Z;
  notes_from_user : Z;
  notes_to_user : Z;
  notes_message : string;
  notes_read : Z;
  notes_created_at : Z
}.

(** The tables the routes touch and the sequences behind their [SERIAL]
    keys.  ([date_ideas] is created but no route reads or writes it.) *)
Record database := mk_db {
  users : list users_row;
  todos : list todos_row;
  moods : list moods_row;
  notes : list notes_row;
  users_id_seq : Z;
  todos_id_seq : Z;
  moods_id_seq : Z;
  notes_id_seq : Z
}.

(** A fresh database after [init_db]. *)
Definition init_db : database := mk_db [] [] [] [] 1 1 1 1.

Definition set_users (v : list users_row) (d : database) : database :=
  mk_db v (todos d) (moods d) (notes d)
        (users_id_seq d) (todos_id_seq d) (moods_id_seq d) (notes_id_seq d).
Definition set_todos (v : list todos_row) (d : database) : database :=
  mk_db (users d) v (moods d) (notes d)
        (users_id_seq d) (todos_id_seq d) (moods_id_seq d) (notes_id_seq d).
Definition set_moods (v : list moods_row) (d : database) : database :=
  mk_db (users d) (todos d) v (notes d)
        (users_id_seq d) (todos_id_seq d) (moods_id_seq d) (notes_id_seq d).
Definition set_notes (v : list notes_row) (d : database) : database :=
  mk_db (users d) (todos d) (moods d) v
        (users_id_seq d) (todos_id_seq d) (moods_id_seq d) (notes_id_seq d).

(** Sequences are not transactional: a value drawn inside a transaction
    that is later rolled back stays drawn. *)
Definition keep_seqs (committed working : database) : database :=
  mk_db (users committed) (todos committed) (moods committed) (notes committed)
        (users_id_seq working) (todos_id_seq working)
        (moods_id_seq working) (notes_id_seq working).

(** The tables alone, which is what a reader of the database observes. *)
Definition same_tables (a b : database) : Prop :=
  users a = users b /\ todos a = todos b /\
  moods a = moods b /\ notes a = notes b.

(* ================================================================== *)
(** ** SQL statements *)
(* ================================================================== *)

Inductive exn :=
| UniqueViolation
| ForeignKeyViolation
| NumericValueOutOfRange
| OperationalError
| ValueError
| TypeError
| KeyError.

(** A statement run on the working copy: its result (or the error the
    driver raises) and the new working copy. *)
Definition stmt (A : Type) := database -> (A + exn) * database.

(** [SELECT * FROM users WHERE username = %s], [fetchone] *)
Definition user_named (name : string) (d : database) : option users_row :=
  find (fun r => users_username r =? name) (users d).

Definition select_user_by_username (name : string) : stmt (option users_row) :=
  fun d => (inl (user_named name d), d).

(** [SELECT * FROM users WHERE id = %s], [fetchone] *)
Definition user_by_id (uid : Z) (d : database) : option users_row :=
  find (fun r => (users_id r =? uid)%Z) (users d).

Definition select_user_by_id (uid : Z) : stmt (option users_row) :=
  fun d => (inl (user_by_id uid d), d).

(** The [username TEXT UNIQUE] check. *)
Definition username_taken (name : string) (d : database) : bool :=
  existsb (fun r => users_username r =? name) (users d).

(** [INSERT INTO users (username, password, display_name) VALUES ...]:
    the key is drawn first, then [username UNIQUE] is checked. *)
Definition insert_user (username password display_name : string) : stmt unit :=
  fun d =>
    let k := users_id_seq d in
    let d1 := mk_db (users d) (todos d) (moods d) (notes d)
                    (k + 1) (todos_id_seq d) (moods_id_seq d) (notes_id_seq d) in
    if username_taken username d
    then (inr UniqueViolation, d1)
    else (inl tt,
          set_users (users d ++ [mk_user k username password display_name None]) d1).

Definition set_partner (pid uid : Z) (r : users_row) : users_row :=
  if (users_id r =? uid)%Z
  then mk_user (users_id r) (users_username r) (users_password r)
               (users_display_name r) (Some pid)
  else r.

(** [UPDATE users SET partner_id = %s WHERE id = %s] *)
Definition update_partner (pid uid : Z) : stmt unit :=
  fun d => (inl tt, set_users (map (set_partner pid uid) (users d)) d).

(** *** [ORDER BY]: a stable insertion sort on the selected rows *)

Fixpoint insert_by {A : Type} (leb : A -> A -> bool) (x : A) (l : list A) : list A :=
  match l with
  | [] => [x]
  | y :: t => if leb x y then x :: l else y :: insert_by leb x t
  end.

Definition order_by {A : Type} (leb : A -> A -> bool) (l : list A) : list A :=
  fold_right (insert_by leb) [] l.

(** [ORDER BY done ASC, created_at DESC] *)
Definition todos_order (a b : todos_row) : bool :=
  (todos_done a <? todos_done b)%Z
  || ((todos_done a =? todos_done b)%Z
      && (todos_created_at b <=? todos_created_at a)%Z).

(** [SELECT * FROM todos WHERE user_id = %s ORDER BY done ASC, created_at DESC],
    [fetchall] *)
Definition todos_for (uid : Z) (d : database) : list todos_row :=
  order_by todos_order (filter (fun t => (todos_user_id t =? uid)%Z) (todos d)).

Definition select_todos_for (uid : Z) : stmt (list todos_row) :=
  fun d => (inl (todos_for uid d), d).

Definition user_exists (uid : Z) (d : database) : bool :=
  existsb (fun r => (users_id r =? uid)%Z) (users d).

(** [INSERT INTO todos (user_id, text) VALUES (%s, %s)]: [done] and
    [created_at] take their defaults; [user_id REFERENCES users(id)]. *)
Definition insert_todo (now uid : Z) (text : string) : stmt unit :=
  fun d =>
    let k := todos_id_seq d in
    let d1 := mk_db (users d) (todos d) (moods d) (notes d)
                    (users_id_seq d) (k + 1) (moods_id_seq d) (notes_id_seq d) in
    if user_exists uid d
    then (inl tt, set_todos (todos d ++ [mk_todo k uid text 0 now]) d1)
    else (inr ForeignKeyViolation, d1).

(** [SELECT * FROM todos WHERE id = %s], [fetchone] *)
Definition select_todo_by_id (tid : Z) : stmt (option todos_row) :=
  fun d => (inl (find (fun t => (todos_id t =? tid)%Z) (todos d)), d).

Definition set_done (v tid : Z) (t : todos_row) : todos_row :=
  if (todos_id t =? tid)%Z
  then mk_todo (todos_id t) (todos_user_id t) (todos_text t) v (todos_created_at t)
  else t.

(** [UPDATE todos SET done = %s WHERE id = %s] *)
Definition update_todo_done (v tid : Z) : stmt unit :=
  fun d => (inl tt, set_todos (map (set_done v tid) (todos d)) d).

(** [DELETE FROM todos WHERE id = %s AND user_id = %s] *)
Definition delete_todo_stmt (tid uid : Z) : stmt unit :=
  fun d =>
    (inl tt,
     set_todos
       (filter (fun t => negb ((todos_id t =? tid)%Z && (todos_user_id t =? uid)%Z))
               (todos d)) d).

Definition int4_min : Z := -2147483648.
Definition int4_max : Z := 2147483647.

(** [INSERT INTO moods (user_id, score, note) VALUES (%s, %s, %s)]:
    [score INTEGER] is a 32-bit column. *)
Definition insert_mood (now uid score : Z) (note : string) : stmt unit :=
  fun d =>
    if ((score <? int4_min) || (int4_max <? score))%Z
    then (inr NumericValueOutOfRange, d)
    else
      let k := moods_id_seq d in
      let d1 := mk_db (users d) (todos d) (moods d) (notes d)
                      (users_id_seq d) (todos_id_seq d) (k + 1) (notes_id_seq d) in
      if user_exists uid d
      then (inl tt, set_moods (moods d ++ [mk_mood k uid score note now]) d1)
      else (inr ForeignKeyViolation, d1).

Definition mark_read (uid : Z) (n : notes_row) : notes_row :=
  if (notes_to_user n =? uid)%Z
  then mk_note (notes_id n) (notes_from_user n) (notes_to_user n)
               (notes_message n) 1 (notes_created_at n)
  else n.

(** [UPDATE notes SET read = 1 WHERE to_user = %s] *)
Definition update_notes_read (uid : Z) : stmt unit :=
  fun d => (inl tt, set_notes (map (mark_read uid) (notes d)) d).

(** A row of the notes listing: [notes.*] with the two joined names. *)
Record notes_view := mk_view {
  view_note : notes_row;
  sender_name : string;
  receiver_name : string
}.

(** [FROM notes JOIN users u1 ON notes.from_user = u1.id
               JOIN users u2 ON notes.to_user = u2.id] *)
Definition join_names (us : list users_row) (n : notes_row) : list notes_view :=
  flat_map (fun u1 =>
    if (notes_from_user n =? users_id u1)%Z
    then flat_map (fun u2 =>
           if (notes_to_user n =? users_id u2)%Z
           then [mk_view n (users_display_name u1) (users_display_name u2)]
           else []) us
    else []) us.

(** [ORDER BY notes.created_at DESC] *)
Definition notes_order (a b : notes_view) : bool :=
  (notes_created_at (view_note b) <=? notes_created_at (view_note a))%Z.

(** The [SELECT notes.*, ... WHERE notes.from_user = %s OR notes.to_user = %s
    ORDER BY notes.created_at DESC] of the notes page, [fetchall]. *)
Definition notes_for (uid : Z) (d : database) : list notes_view :=
  order_by notes_order
    (filter (fun v => (notes_from_user (view_note v) =? uid)%Z
                      || (notes_to_user (view_note v) =? uid)%Z)
            (flat_map (join_names (users d)) (notes d))).

Definition select_notes_for (uid : Z) : stmt (list notes_view) :=
  fun d => (inl (notes_for uid d), d).

(** [INSERT INTO notes (from_user, to_user, message) VALUES (%s, %s, %s)] *)
Definition insert_note (now from_uid to_uid : Z) (message : string) : stmt unit :=
  fun d =>
    let k := notes_id_seq d in
    let d1 := mk_db (users d) (todos d) (moods d) (notes d)
                    (users_id_seq d) (todos_id_seq d) (moods_id_seq d) (k + 1) in
    if user_exists from_uid d && user_exists to_uid d
    then (inl tt, set_notes (notes d ++ [mk_note k from_uid to_uid message 0 now]) d1)
    else (inr ForeignKeyViolation, d1).

(* ================================================================== *)
(** ** The handler monad *)
(* ================================================================== *)

(** What a request brings with it besides its form: the signed session
    cookie, the server clock, the salt [generate_password_hash] will draw,
    and the number of database calls that succeed before the connection
    fails ([None]: it never fails). *)
Record env := mk_env {
  e_session : option Z;
  e_now : Z;
  e_salt : string;
  e_fault : option nat
}.

Record hstate := mk_hstate {
  store : database;            (* committed *)
  work : database;             (* the open connection's transaction *)
  session : option Z;          (* session['user_id'] *)
  flashes : list (string * string);
  budget : option nat
}.

Definition M (A : Type) : Type := hstate -> (A + exn) * hstate.

Definition ret {A : Type} (a : A) : M A := fun s => (inl a, s).

Definition bind {A B : Type} (m : M A) (k : A -> M B) : M B :=
  fun s =>
    match m s with
    | (inl a, s') => k a s'
    | (inr e, s') => (inr e, s')
    end.

Definition raise {A : Type} (e : exn) : M A := fun s => (inr e, s).

Definition exn_eqb (a b : exn) : bool :=
  match a, b with
  | UniqueViolation, UniqueViolation
  | ForeignKeyViolation, ForeignKeyViolation
  | NumericValueOutOfRange, NumericValueOutOfRange
  | OperationalError, OperationalError
  | ValueError, ValueError
  | TypeError, TypeError
  | KeyError, KeyError => true
  | _, _ => false
  end.

(** [finally: fin] after a block that ended in [r]: an exception raised by
    [fin] replaces the block's outcome. *)
Definition finally {A : Type} (fin : M unit) (r : (A + exn) * hstate) : (A + exn) * hstate :=
  match fin (snd r) with
  | (inl _, s) => (fst r, s)
  | (inr x, s) => (inr x, s)
  end.

(** [try: body  except e: handler  finally: fin] *)
Definition try_except_finally {A : Type}
    (body : M A) (e : exn) (handler : M A) (fin : M unit) : M A :=
  fun s =>
    match body s with
    | (inl a, s1) => finally fin (inl a, s1)
    | (inr x, s1) =>
        if exn_eqb x e then finally fin (handler s1) else finally fin (inr x, s1)
    end.

Declare Scope handler_scope.
Delimit Scope handler_scope with handler.
Notation "x <- m ;; k" := (bind m (fun x => k))
  (at level 61, m at next level, right associativity) : handler_scope.
Notation "m ;; k" := (bind m (fun _ => k))
  (at level 61, right associativity) : handler_scope.
Local Open Scope handler_scope.

(** Every call into the driver spends one unit of the budget. *)
Definition db_call : M unit :=
  fun s =>
    match budget s with
    | None => (inl tt, s)
    | Some O => (inr OperationalError, s)
    | Some (S n) => (inl tt, mk_hstate (store s) (work s) (session s) (flashes s) (Some n))
    end.

(** [get_db()]: a connection whose transaction starts from what is
    committed. *)
Definition get_db : M unit :=
  db_call ;;
  fun s => (inl tt, mk_hstate (store s) (store s) (session s) (flashes s) (budget s)).

(** [cur.execute(...)]: the statement runs on the working copy; sequence
    values it draws are gone for good. *)
Definition execute {A : Type} (q : stmt A) : M A :=
  db_call ;;
  fun s =>
    let (r, w) := q (work s) in
    (r, mk_hstate (keep_seqs (store s) w) w (session s) (flashes s) (budget s)).

(** [conn.commit()] *)
Definition commit : M unit :=
  db_call ;;
  fun s => (inl tt, mk_hstate (work s) (work s) (session s) (flashes s) (budget s)).

(** [conn.rollback()] *)
Definition rollback : M unit :=
  db_call ;;
  fun s => (inl tt, mk_hstate (store s) (store s) (session s) (flashes s) (budget s)).

(** [cur.close(); conn.close()]: what was not committed is dropped. *)
Definition close : M unit :=
  fun s => (inl tt, mk_hstate (store s) (store s) (session s) (flashes s) (budget s)).

(** [flash(message, category)] *)
Definition flash (message category : string) : M unit :=
  fun s =>
    (inl tt, mk_hstate (store s) (work s) (session s)
                       (flashes s ++ [(message, category)]) (budget s)).

Definition get_session : M (option Z) := fun s => (inl (session s), s).

Definition put_session (v : option Z) : M unit :=
  fun s => (inl tt, mk_hstate (store s) (work s) v (flashes s) (budget s)).

(** [session['user_id']] *)
Definition session_user_id : M Z :=
  fun s =>
    match session s with
    | Some uid => (inl uid, s)
    | None => (inr KeyError, s)
    end.

(* ================================================================== *)
(** ** Requests and responses *)
(* ================================================================== *)

(** The routes of the application with the form fields or path parameter
    each one reads. *)
Inductive request :=
| GET_index
| GET_login
| POST_login (username password : string)
| GET_register
| POST_register (username display_name password : string)
| GET_link_partner
| POST_link_partner (partner_username : string)
| GET_logout
| GET_dashboard
| POST_todo_add (text : string)
| GET_todo_toggle (todo_id : Z)
| GET_todo_delete (todo_id : Z)
| POST_mood_log (score : string) (note : option string)
| GET_notes
| POST_notes_send (message : string).

(** What a handler returns: a redirect to an endpoint or a rendered
    template with its context.  An exception that leaves the handler is
    turned by Flask into a 500 page. *)
Inductive response :=
| redirect (endpoint : string)
| render_login
| render_register
| render_link_partner (user : option users_row)
| render_dashboard (user partner : option users_row)
                   (my_todos partner_todos : list todos_row)
| render_notes (user partner : option users_row) (all_notes : list notes_view)
| internal_server_error (e : exn).

(** What is left after a request: the response, the committed database,
    the session cookie sent back and the messages flashed. *)
Record outcome := mk_outcome {
  o_resp : response;
  o_db : database;
  o_session : option Z;
  o_flashes : list (string * string)
}.

Definition run (h : M response) (e : env) (d : database) : outcome :=
  match h (mk_hstate d d (e_session e) [] (e_fault e)) with
  | (inl r, s) => mk_outcome r (store s) (session s) (flashes s)
  | (inr x, s) => mk_outcome (internal_server_error x) (store s) (session s) (flashes s)
  end.

(* ================================================================== *)
(** ** The route handlers *)
(* ================================================================== *)

(** [user['id']] on the result of [current_user()]: subscripting [None]
    is a [TypeError]. *)
Definition subscript_id (user : option users_row) : M Z :=
  match user with
  | Some u => ret (users_id u)
  | None => raise TypeError
  end.

Definition login_required (f : M response) : M response :=
  u <- get_session ;;
  match u with
  | None => ret (redirect "login")
  | Some _ => f
  end.

Definition current_user : M (option users_row) :=
  u <- get_session ;;
  match u with
  | None => ret None
  | Some uid =>
      get_db ;;
      user <- execute (select_user_by_id uid) ;;
      close ;;
      ret user
  end.

(** [not user['partner_id']] holds for [NULL] and for [0]. *)
Definition get_partner (user : option users_row) : M (option users_row) :=
  match user with
  | None => ret None
  | Some u =>
      match users_partner_id u with
      | None => ret None
      | Some pid =>
          if (pid =? 0)%Z then ret None
          else
            get_db ;;
            partner <- execute (select_user_by_id pid) ;;
            close ;;
            ret partner
      end
  end.

Definition index : M response :=
  u <- get_session ;;
  match u with
  | Some _ => ret (redirect "dashboard")
  | None => ret (redirect "login")
  end.

Definition logout : M response :=
  put_session None ;;
  ret (redirect "login").

Section Handlers.

(** werkzeug's [generate_password_hash], with the salt it draws made
    explicit, and [check_password_hash pwhash password]. *)
Variable generate_password_hash : string -> string -> string.
Variable check_password_hash : string -> string -> bool.

Definition login (username password : string) : M response :=
  let username := lower (strip username) in
  get_db ;;
  user <- execute (select_user_by_username username) ;;
  close ;;
  match user with
  | Some u =>
      if check_password_hash (users_password u) password
      then put_session (Some (users_id u)) ;; ret (redirect "dashboard")
      else flash "Wrong username or password 💔" "error" ;; ret render_login
  | None => flash "Wrong username or password 💔" "error" ;; ret render_login
  end.

Definition register (salt username display_name password : string) : M response :=
  let username := lower (strip username) in
  let display_name := strip display_name in
  let password := generate_password_hash salt password in
  get_db ;;
  r <- try_except_finally
         (execute (insert_user username password display_name) ;;
          commit ;;
          flash "Account created! Log in now 🎉" "success" ;;
          ret (Some (redirect "login")))
         UniqueViolation
         (rollback ;;
          flash "That username is taken 😬" "error" ;;
          ret None)
         close ;;
  match r with
  | Some resp => ret resp
  | None => ret render_register
  end.

Definition link_partner_get : M response :=
  login_required (user <- current_user ;; ret (render_link_partner user)).

Definition link_partner (partner_username : string) : M response :=
  login_required (
    user <- current_user ;;
    let partner_username := lower (strip partner_username) in
    get_db ;;
    partner <- execute (select_user_by_username partner_username) ;;
    match partner with
    | None =>
        flash "Couldn't find that user 🤔" "error" ;;
        close ;;
        ret (render_link_partner user)
    | Some p =>
        uid <- subscript_id user ;;
        if (users_id p =? uid)%Z
        then
          flash "That's you! Enter your partner's username 😄" "error" ;;
          close ;;
          ret (render_link_partner user)
        else
          execute (update_partner (users_id p) uid) ;;
          execute (update_partner uid (users_id p)) ;;
          commit ;;
          flash ("Linked with " ++ users_display_name p ++ "! 💕") "success" ;;
          close ;;
          ret (redirect "dashboard")
    end).

Definition dashboard : M response :=
  login_required (
    user <- current_user ;;
    partner <- get_partner user ;;
    get_db ;;
    uid <- subscript_id user ;;
    my_todos <- execute (select_todos_for uid) ;;
    partner_todos <-
      match partner with
      | Some p => execute (select_todos_for (users_id p))
      | None => ret []
      end ;;
    close ;;
    ret (render_dashboard user partner my_todos partner_todos)).

Definition add_todo (now : Z) (text : string) : M response :=
  login_required (
    let text := strip text in
    (if truthy_str text
     then
       get_db ;;
       uid <- session_user_id ;;
       execute (insert_todo now uid text) ;;
       commit ;;
       close
     else ret tt) ;;
    ret (redirect "dashboard")).

Definition toggle_todo (todo_id : Z) : M response :=
  login_required (
    get_db ;;
    todo <- execute (select_todo_by_id todo_id) ;;
    match todo with
    | Some t =>
        uid <- session_user_id ;;
        if (todos_user_id t =? uid)%Z
        then
          let new_state := if (todos_done t =? 0)%Z then 1%Z else 0%Z in
          execute (update_todo_done new_state todo_id) ;;
          commit
        else ret tt
    | None => ret tt
    end ;;
    close ;;
    ret (redirect "dashboard")).

Definition delete_todo (todo_id : Z) : M response :=
  login_required (
    get_db ;;
    uid <- session_user_id ;;
    execute (delete_todo_stmt todo_id uid) ;;
    commit ;;
    close ;;
    ret (redirect "dashboard")).

Definition log_mood (now : Z) (score : string) (note : option string) : M response :=
  login_required (
    score <- match py_int score with
             | Some v => ret v
             | None => raise ValueError
             end ;;
    let note := strip (match note with Some n => n | None => "" end) in
    get_db ;;
    uid <- session_user_id ;;
    execute (insert_mood now uid score note) ;;
    commit ;;
    close ;;
    ret (redirect "dashboard")).

Definition notes_page : M response :=
  login_required (
    user <- current_user ;;
    partner <- get_partner user ;;
    get_db ;;
    uid <- subscript_id user ;;
    execute (update_notes_read uid) ;;
    commit ;;
    all_notes <- execute (select_notes_for uid) ;;
    close ;;
    ret (render_notes user partner all_notes)).

Definition send_note (now : Z) (message : string) : M response :=
  login_required (
    user <- current_user ;;
    partner <- get_partner user ;;
    let message := strip message in
    match partner with
    | Some p =>
        if truthy_str message
        then
          get_db ;;
          uid <- subscript_id user ;;
          execute (insert_note now uid (users_id p) message) ;;
          commit ;;
          close ;;
          flash "Note sent 💌" "success"
        else ret tt
    | None => ret tt
    end ;;
    ret (redirect "notes")).

(** The URL map. *)
Definition handler (e : env) (r : request) : M response :=
  match r with
  | GET_index => index
  | GET_login => ret render_login
  | POST_login u p => login u p
  | GET_register => ret render_register
  | POST_register u dn p => register (e_salt e) u dn p
  | GET_link_partner => link_partner_get
  | POST_link_partner pu => link_partner pu
  | GET_logout => logout
  | GET_dashboard => dashboard
  | POST_todo_add t => add_todo (e_now e) t
  | GET_todo_toggle k => toggle_todo k
  | GET_todo_delete k => delete_todo k
  | POST_mood_log sc n => log_mood (e_now e) sc n
  | GET_notes => notes_page
  | POST_notes_send m => send_note (e_now e) m
  end.

Definition handle (e : env) (r : request) (d : database) : outcome :=
  run (handler e r) e d.

End Handlers.


(* ================================================================== *)
(** ** Configuration: the database URL *)
(* ================================================================== *)

(** [s[n:]] *)
Fixpoint skip (n : nat) (s : string) : string :=
  match n, s with
  | O, _ => s
  | S n', String _ r => skip n' r
  | S _, EmptyString => EmptyString
  end.

(** [s.replace(old, new, 1)]: the leftmost occurrence of [old] gives way
    to [new]. *)
Fixpoint replace_first (old new s : string) : string :=
  match s with
  | EmptyString => if prefix old EmptyString then new else EmptyString
  | String c r =>
      if prefix old s then new ++ skip (String.length old) s
      else String c (replace_first old new r)
  end.

(** The value the module keeps in [DATABASE_URL] for the one read from the
    environment: [postgres://] at the front becomes [postgresql://]. *)
Definition DATABASE_URL (environ : string) : string :=
  if prefix "postgres://" environ
  then replace_first "postgres://" "postgresql://" environ
  else environ.
(* ================================================================== *)
(** ** Vocabulary of the properties *)
(* ================================================================== *)

Definition linked_notice (p : users_row) : string * string :=
  ("Linked with " ++ users_display_name p ++ "! 💕", "success").

(** A string of whitespace only (the empty string included). *)
Fixpoint all_space (s : string) : bool :=
  match s with
  | EmptyString => true
  | String c r => is_space c && all_space r
  end.

(** The partner reference read back from the row with key [uid]. *)
Definition partner_of (uid : Z) (d : database) : option (option Z) :=
  option_map users_partner_id (user_by_id uid d).

(** The partner row the dashboard and the notes page resolve for [user]. *)
Definition partner_row (user : users_row) (d : database) : option users_row :=
  match users_partner_id user with
  | None => None
  | Some pid => if (pid =? 0)%Z then None else user_by_id pid d
  end.


(** [a] may stand before [b] in a todo listing. *)
Definition todo_before (a b : todos_row) : Prop :=
  todos_done a < todos_done b
  \/ (todos_done a = todos_done b /\ todos_created_at b <= todos_created_at a).

(** [a] may stand before [b] in a notes listing: it is not older. *)
Definition newer_first (a b : notes_view) : Prop :=
  notes_created_at (view_note b) <= notes_created_at (view_note a).

(** The display name stored for the user with key [uid]. *)
Definition name_of (uid : Z) (d : database) : option string :=
  option_map users_display_name (user_by_id uid d).

(** The user with key [uid] sent or received [n]. *)
Definition involves (uid : Z) (n : notes_row) : bool :=
  (notes_from_user n =? uid)%Z || (notes_to_user n =? uid)%Z.

(** [REFERENCES users(id)] on both user columns of [notes]. *)
Definition notes_refs_ok (d : database) : Prop :=
  forall n, In n (notes d) ->
    user_exists (notes_from_user n) d = true
    /\ user_exists (notes_to_user n) d = true.

(** The listing row [v] carries the stored names of its two users. *)
Definition names_ok (d : database) (v : notes_view) : Prop :=
  name_of (notes_from_user (view_note v)) d = Some (sender_name v)
  /\ name_of (notes_to_user (view_note v)) d = Some (receiver_name v).

(** Partner references are mutual. *)
Definition symmetric (d : database) : Prop :=
  forall a b, In a (users d) -> In b (users d) ->
    users_partner_id a = Some (users_id b) ->
    users_partner_id b = Some (users_id a).

(** A link request that would go through joins two users who are both
    unlinked, or who are each other's partner already. *)
Definition fresh_link (e : env) (r : request) (d : database) : Prop :=
  match r with
  | POST_link_partner partner_username =>
      forall uid a b,
        e_session e = Some uid ->
        user_by_id uid d = Some a ->
        user_named (lower (strip partner_username)) d = Some b ->
        users_id b <> users_id a ->
        (users_partner_id a = None /\ users_partner_id b = None)
        \/ (users_partner_id a = Some (users_id b)
            /\ users_partner_id b = Some (users_id a))
  | _ => True
  end.

(** What one request can do to the users table. *)
Inductive users_step (e : env) (r : request) (d d' : database) : Prop :=
| us_same :
    users d' = users d ->
    users_id_seq d <= users_id_seq d' ->
    users_step e r d d'
| us_insert name pw dn :
    username_taken name d = false ->
    users d' = (users d ++ [mk_user (users_id_seq d) name pw dn None])%list ->
    users_id_seq d' = users_id_seq d + 1 ->
    users_step e r d d'
| us_link pu uid a b :
    r = POST_link_partner pu ->
    e_session e = Some uid ->
    user_by_id uid d = Some a ->
    user_named (lower (strip pu)) d = Some b ->
    users_id b <> users_id a ->
    users d' = map (set_partner (users_id a) (users_id b))
                   (map (set_partner (users_id b) (users_id a)) (users d)) ->
    users_id_seq d' = users_id_seq d ->
    users_step e r d d'.

(** What one request can do to the notes table. *)
Inductive notes_step (d d' : database) : Prop :=
| ns_same : notes d' = notes d -> notes_step d d'
| ns_read uid : notes d' = map (mark_read uid) (notes d) -> notes_step d d'
| ns_insert k from_uid to_uid message now :
    user_exists from_uid d = true ->
    user_exists to_uid d = true ->
    notes d' = (notes d ++ [mk_note k from_uid to_uid message 0 now])%list ->
    notes_step d d'.

(** The primary key of [users], with keys and partner references below
    the sequence. *)
Definition users_keys (d : database) : Prop :=
  NoDup (map users_id (users d))
  /\ (forall u, In u (users d) -> users_id u < users_id_seq d)
  /\ (forall u pid, In u (users d) -> users_partner_id u = Some pid ->
                    pid < users_id_seq d).

Definition users_inv (d : database) : Prop :=
  users_keys d /\ symmetric d.

(* ================================================================== *)
(** ** A browser session and reachable databases *)
(* ================================================================== *)

Definition with_session (c : option Z) (e : env) : env :=
  mk_env c (e_now e) (e_salt e) (e_fault e).

Section Runs.

Variable generate_password_hash : string -> string -> string.
Variable check_password_hash : string -> string -> bool.

(** One browser issuing requests in turn: the cookie a response sets is
    the cookie the next request carries. *)
Fixpoint browse (trace : list (env * request)) (c : option Z) (d : database)
  : option Z * database :=
  match trace with
  | [] => (c, d)
  | (e, r) :: t =>
      let o := handle generate_password_hash check_password_hash
                      (with_session c e) r d in
      browse t (o_session o) (o_db o)
  end.

(** Every link request of the browser's trace is a fresh one. *)
Fixpoint fresh_trace (trace : list (env * request)) (c : option Z) (d : database)
  : Prop :=
  match trace with
  | [] => True
  | (e, r) :: t =>
      let o := handle generate_password_hash check_password_hash
                      (with_session c e) r d in
      fresh_link (with_session c e) r d /\ fresh_trace t (o_session o) (o_db o)
  end.

(** The databases the application can reach from a fresh one, whatever
    the cookies, clock values, salts and connection failures. *)
Inductive reachable : database -> Prop :=
| reach_init : reachable init_db
| reach_step e r d :
    reachable d ->
    reachable (o_db (handle generate_password_hash check_password_hash e r d)).

(** The databases reached when every link request is a fresh one. *)
Inductive reachable_unlinked : database -> Prop :=
| ru_init : reachable_unlinked init_db
| ru_step e r d :
    reachable_unlinked d ->
    fresh_link e r d ->
    reachable_unlinked
      (o_db (handle generate_password_hash check_password_hash e r d)).

End Runs.

(* ================================================================== *)
(** ** A stand-in for werkzeug and some sample traffic *)
(* ================================================================== *)

(** A toy password scheme to run the handlers with: the hash is the salt,
    a dollar sign and the password. *)
Definition toy_hash (salt password : string) : string :=
  salt ++ "$" ++ password.

Fixpoint after_dollar (s : string) : string :=
  match s with
  | EmptyString => EmptyString
  | String c r => if (c =? "$")%char then r else after_dollar r
  end.

Definition toy_check (pwhash password : string) : bool :=
  after_dollar pwhash =? password.

(** A request at clock value [now], no connection failure. *)
Definition at_time (now : Z) (r : request) : env * request :=
  (mk_env None now "na" None, r).

(** Alice, Bob and Carol sign up. *)
Definition signup_trace : list (env * request) :=
  [ at_time 1 (POST_register " Alice " "Alice" "secret1");
    at_time 2 (POST_register "bob" "Bob" "secret2");
    at_time 3 (POST_register "carol" "Carol" "secret3") ].

(** ... then Alice logs in and links with Bob, *)
Definition link_trace : list (env * request) :=
  (signup_trace ++
   [ at_time 4 (POST_login "ALICE" "secret1");
     at_time 5 (POST_link_partner "Bob") ])%list.

(** ... then she links with Carol instead, *)
Definition relink_trace : list (env * request) :=
  (link_trace ++ [ at_time 6 (POST_link_partner "carol") ])%list.

(** ... or, having linked with Bob, she adds three todos, ticks one off
    and sends Bob two notes. *)
Definition busy_trace : list (env * request) :=
  (link_trace ++
   [ at_time 6 (POST_todo_add "buy milk");
     at_time 7 (POST_todo_add "call mum");
     at_time 8 (POST_todo_add "water plants");
     at_time 9 (GET_todo_toggle 2);
     at_time 10 (POST_notes_send "hi");
     at_time 11 (POST_notes_send " see you at 8 ") ])%list.

Definition signup_db : database :=
  snd (browse toy_hash toy_check signup_trace None init_db).
Definition link_db : database :=
  snd (browse toy_hash toy_check link_trace None init_db).
Definition relink_db : database :=
  snd (browse toy_hash toy_check relink_trace None init_db).
Definition busy_db : database :=
  snd (browse toy_hash toy_check busy_trace None init_db).

(** Rows of the sample databases. *)
Definition alice_row (partner : option Z) : users_row :=
  mk_user 1 "alice" "na$secret1" "Alice" partner.
Definition bob_row (partner : option Z) : users_row :=
  mk_user 2 "bob" "na$secret2" "Bob" partner.

(* ================================================================== *)
(** ** Further vocabulary: the other routes *)
(* ================================================================== *)

(** The routes decorated with [@login_required]. *)
Definition protected (r : request) : bool :=
  match r with
  | GET_link_partner | POST_link_partner _ | GET_dashboard
  | POST_todo_add _ | GET_todo_toggle _ | GET_todo_delete _
  | POST_mood_log _ _ | GET_notes | POST_notes_send _ => true
  | GET_index | GET_login | POST_login _ _ | GET_register
  | POST_register _ _ _ | GET_logout => false
  end.

(** The todo with key [tid], as [toggle_todo] fetches it. *)
Definition todo_by_id (tid : Z) (d : database) : option todos_row :=
  find (fun t => (todos_id t =? tid)%Z) (todos d).

(** The new state [toggle_todo] computes from the stored one. *)
Definition flipped (done : Z) : Z := if (done =? 0)%Z then 1 else 0.

(** The columns of a user that no route writes after the insert. *)
Definition user_ident (u : users_row) : Z * string * string * string :=
  (users_id u, users_username u, users_password u, users_display_name u).

(** The columns of a note that no route writes after the insert. *)
Definition note_ident (n : notes_row) : Z * Z * Z * string * Z :=
  (notes_id n, notes_from_user n, notes_to_user n, notes_message n,
   notes_created_at n).


(** No whitespace at the front. *)
Definition no_lead (s : string) : Prop :=
  match s with
  | EmptyString => True
  | String c _ => is_space c = false
  end.

(** The cookie names a stored user, or there is none. *)
Definition session_ok (c : option Z) (d : database) : Prop :=
  match c with
  | Some uid => user_exists uid d = true
  | None => True
  end.

(** What one request can do to the todos table. *)
Inductive todos_step (e : env) (d d' : database) : Prop :=
| ts_same :
    todos d' = todos d ->
    todos_id_seq d <= todos_id_seq d' ->
    todos_step e d d'
| ts_insert uid text :
    e_session e = Some uid ->
    user_exists uid d = true ->
    text <> "" ->
    todos d' = (todos d ++ [mk_todo (todos_id_seq d) uid text 0 (e_now e)])%list ->
    todos_id_seq d' = todos_id_seq d + 1 ->
    todos_step e d d'
| ts_toggle uid tid t :
    e_session e = Some uid ->
    todo_by_id tid d = Some t ->
    todos_user_id t = uid ->
    todos d' = map (set_done (flipped (todos_done t)) tid) (todos d) ->
    todos_id_seq d' = todos_id_seq d ->
    todos_step e d d'
| ts_delete uid tid :
    e_session e = Some uid ->
    todos d' = filter (fun t => negb ((todos_id t =? tid)%Z
                                      && (todos_user_id t =? uid)%Z)) (todos d) ->
    todos_id_seq d' = todos_id_seq d ->
    todos_step e d d'.

(** What one request can do to the moods table. *)
Inductive moods_step (e : env) (d d' : database) : Prop :=
| ms_same : moods d' = moods d -> moods_step e d d'
| ms_insert uid score note :
    e_session e = Some uid ->
    int4_min <= score <= int4_max ->
    moods d' = (moods d ++ [mk_mood (moods_id_seq d) uid score note (e_now e)])%list ->
    moods_step e d d'.

(** The primary key of [todos], its foreign key, and what the routes store
    in [done] and [text]. *)
Definition todos_ok (d : database) : Prop :=
  NoDup (map todos_id (todos d))
  /\ (forall t, In t (todos d) ->
        todos_id t < todos_id_seq d
        /\ user_exists (todos_user_id t) d = true
        /\ (todos_done t = 0 \/ todos_done t = 1)
        /\ todos_text t <> "").


Section Histories.

Variable generate_password_hash : string -> string -> string.
Variable check_password_hash : string -> string -> bool.

(** [d'] is [d] after some requests, whatever their cookies, clock values,
    salts and connection failures. *)
Inductive reaches (d : database) : database -> Prop :=
| reaches_refl : reaches d d
| reaches_step e r d' :
    reaches d d' ->
    reaches d (o_db (handle generate_password_hash check_password_hash e r d')).

End Histories.

(* ================================================================== *)
(** ** Running a handler symbolically *)
(* ================================================================== *)

Arguments user_named : simpl never.
Arguments user_by_id : simpl never.
Arguments todos_for : simpl never.
Arguments notes_for : simpl never.

(** Unfold the handlers, the monad and the statements, and nothing of the
    queries' list functions or the string helpers. *)
Ltac exec :=
  cbv beta iota zeta delta
    [handle run handler login register link_partner link_partner_get
     dashboard add_todo toggle_todo delete_todo log_mood notes_page
     send_note index logout login_required current_user get_partner
     subscript_id session_user_id
     try_except_finally finally exn_eqb
     ret bind raise db_call get_db execute commit rollback close flash
     get_session put_session
     select_user_by_username select_user_by_id insert_user update_partner
     select_todos_for insert_todo select_todo_by_id update_todo_done
     delete_todo_stmt insert_mood update_notes_read select_notes_for
     insert_note keep_seqs set_users set_todos set_moods set_notes
     users todos moods notes users_id_seq todos_id_seq moods_id_seq
     notes_id_seq store work session flashes budget
     e_session e_now e_salt e_fault o_resp o_db o_session o_flashes
     same_tables fst snd].

Ltac exec_in H :=
  cbv beta iota zeta delta
    [users todos moods notes users_id_seq todos_id_seq moods_id_seq
     notes_id_seq] in H.

(** Split a failure budget [Some n] into [Some 0], ..., [Some (k-1)] and
    [Some (k + n)]. *)
Ltac split_budget n k :=
  lazymatch k with
  | O => idtac
  | S ?k' => destruct n as [|n]; [ | split_budget n k' ]
  end.

(** Case analysis on what a query returned. *)
Ltac case_scrut :=
  match goal with
  | |- context [match ?x with _ => _ end] =>
      lazymatch type of x with
      | bool => destruct x eqn:?
      | option users_row => destruct x eqn:?
      | option todos_row => destruct x eqn:?
      | option Z => destruct x eqn:?
      end
  end.

Ltac settle_users :=
  first
    [ solve [apply us_same; cbn; [reflexivity | lia]]
    | solve [eapply us_insert; cbn; [eassumption | reflexivity | reflexivity]]
    | solve [eapply us_link; cbn;
             [reflexivity | reflexivity | eassumption | eassumption
             | apply Z.eqb_neq; eassumption | reflexivity | reflexivity]] ].

Ltac crunch := exec; repeat (case_scrut; exec); settle_users.

Ltac settle_notes :=
  first
    [ solve [apply ns_same; reflexivity]
    | solve [eapply ns_read; reflexivity]
    | solve [eapply ns_insert; cbn;
             [ | | reflexivity];
             match goal with
             | H : (_ && _)%bool = true |- _ =>
                 apply andb_prop in H; destruct H; eassumption
             end ] ].

(* ================================================================== *)
(** ** Lemmas on the queries *)
(* ================================================================== *)

Lemma username_taken_In name d :
  username_taken name d = true <->
  exists u, In u (users d) /\ users_username u = name.
Proof.
  unfold username_taken. rewrite existsb_exists.
  split; intros (u & Hin & E); exists u; split; auto.
  - now apply String.eqb_eq.
  - now apply String.eqb_eq.
Qed.

Lemma lstrip_all_space s : all_space s = true -> lstrip s = "".
Proof.
  induction s as [|c r IH]; cbn; auto.
  intros H. apply andb_prop in H as [Hc Hr]. rewrite Hc. auto.
Qed.

Lemma strip_all_space s : all_space s = true -> strip s = "".
Proof. intros H. unfold strip. now rewrite lstrip_all_space. Qed.

Lemma set_partner_id pid uid r : users_id (set_partner pid uid r) = users_id r.
Proof. unfold set_partner. now destruct (users_id r =? uid)%Z. Qed.

Lemma find_id_set_partner pid uid k us :
  find (fun r => (users_id r =? k)%Z) (map (set_partner pid uid) us) =
  option_map (set_partner pid uid) (find (fun r => (users_id r =? k)%Z) us).
Proof.
  induction us as [|r us IH]; cbn; auto.
  rewrite set_partner_id. destruct (users_id r =? k)%Z; auto.
Qed.

Lemma user_by_id_key uid d u : user_by_id uid d = Some u -> users_id u = uid.
Proof.
  unfold user_by_id. intros H. apply find_some in H as [_ E].
  now apply Z.eqb_eq in E.
Qed.

Lemma user_by_id_In uid d u : user_by_id uid d = Some u -> In u (users d).
Proof. unfold user_by_id. intros H. now apply find_some in H. Qed.

Lemma user_named_In name d u :
  user_named name d = Some u -> In u (users d) /\ users_username u = name.
Proof.
  unfold user_named. intros H. apply find_some in H as [Hin E].
  split; auto. now apply String.eqb_eq in E.
Qed.

Lemma existsb_find {B : Type} (f : B -> bool) (l : list B) :
  existsb f l = true -> exists x, find f l = Some x.
Proof.
  intros H. apply existsb_exists in H as (x & Hin & E).
  destruct (find f l) as [y|] eqn:F; eauto.
  apply (find_none _ _ F) in Hin. congruence.
Qed.

Lemma user_by_id_In_some d u :
  In u (users d) -> exists u', user_by_id (users_id u) d = Some u'.
Proof.
  intros Hin. apply existsb_find. apply existsb_exists.
  exists u. split; auto. apply Z.eqb_refl.
Qed.

Lemma filter_all {A : Type} (f : A -> bool) (l : list A) :
  (forall x, In x l -> f x = true) -> filter f l = l.
Proof.
  induction l as [|x l IH]; cbn; intros H; auto.
  rewrite (H x (or_introl eq_refl)). f_equal. auto.
Qed.

Lemma StronglySorted_impl {A : Type} (R S : A -> A -> Prop) l :
  (forall a b, R a b -> S a b) -> StronglySorted R l -> StronglySorted S l.
Proof.
  intros H. induction 1 as [|x t St IH Hx]; constructor; auto.
  revert Hx. apply Forall_impl. auto.
Qed.

(** *** [ORDER BY] permutes and sorts *)

Section OrderBy.

Context {A : Type} (leb : A -> A -> bool).
Hypothesis leb_total : forall a b, leb a b = false -> leb b a = true.
Hypothesis leb_trans :
  forall a b c, leb a b = true -> leb b c = true -> leb a c = true.

Let le (a b : A) : Prop := leb a b = true.

Lemma insert_by_perm x l : Permutation (x :: l) (insert_by leb x l).
Proof.
  induction l as [|y t IH]; cbn; auto.
  destruct (leb x y); auto.
  rewrite perm_swap. now apply perm_skip.
Qed.

Lemma order_by_perm l : Permutation l (order_by leb l).
Proof.
  induction l as [|x t IH]; cbn; auto.
  rewrite <- insert_by_perm. now apply perm_skip.
Qed.

Lemma insert_by_sorted x l :
  StronglySorted le l -> StronglySorted le (insert_by leb x l).
Proof.
  induction 1 as [|y t St IH Hy]; cbn.
  - repeat constructor.
  - destruct (leb x y) eqn:E.
    + constructor; [now constructor|].
      constructor; auto.
      eapply Forall_impl; [|exact Hy]. intros z Hz. unfold le in *. eauto.
    + constructor; auto.
      eapply Permutation_Forall; [apply insert_by_perm|].
      constructor; auto. unfold le. auto.
Qed.

Lemma order_by_sorted l : StronglySorted le (order_by leb l).
Proof.
  induction l as [|x t IH]; cbn; [constructor|].
  now apply insert_by_sorted.
Qed.

End OrderBy.

Lemma todos_order_spec a b : todos_order a b = true <-> todo_before a b.
Proof. unfold todos_order, todo_before. lia. Qed.

Lemma todos_order_total a b : todos_order a b = false -> todos_order b a = true.
Proof. unfold todos_order. lia. Qed.

Lemma todos_order_trans a b c :
  todos_order a b = true -> todos_order b c = true -> todos_order a c = true.
Proof. unfold todos_order. lia. Qed.

Lemma todos_for_sorted uid d : StronglySorted todo_before (todos_for uid d).
Proof.
  unfold todos_for.
  eapply StronglySorted_impl; [|apply order_by_sorted].
  - intros a b. apply todos_order_spec.
  - apply todos_order_total.
  - apply todos_order_trans.
Qed.

Lemma todos_for_perm uid d :
  Permutation (todos_for uid d)
              (filter (fun t => (todos_user_id t =? uid)%Z) (todos d)).
Proof. unfold todos_for. symmetry. apply order_by_perm. Qed.

Lemma notes_order_total a b : notes_order a b = false -> notes_order b a = true.
Proof. unfold notes_order. lia. Qed.

Lemma notes_order_trans a b c :
  notes_order a b = true -> notes_order b c = true -> notes_order a c = true.
Proof. unfold notes_order. lia. Qed.

Lemma mark_read_ends uid n :
  notes_from_user (mark_read uid n) = notes_from_user n
  /\ notes_to_user (mark_read uid n) = notes_to_user n.
Proof. unfold mark_read. now destruct (notes_to_user n =? uid)%Z. Qed.

Lemma mark_read_read uid n :
  notes_to_user n = uid -> notes_read (mark_read uid n) = 1.
Proof. unfold mark_read. intros ->. now rewrite Z.eqb_refl. Qed.

(** *** The join of the notes page under the keys of the schema *)

Lemma flat_map_no_key {B : Type} (g : users_row -> list B) k us :
  ~ In k (map users_id us) ->
  flat_map (fun u => if (k =? users_id u)%Z then g u else []) us = [].
Proof.
  induction us as [|u us IH]; cbn; auto.
  intros H. destruct (k =? users_id u)%Z eqn:E.
  - apply Z.eqb_eq in E. exfalso. auto.
  - cbn. auto.
Qed.

Lemma flat_map_one_key {B : Type} (g : users_row -> list B) k us s :
  NoDup (map users_id us) ->
  find (fun u => (users_id u =? k)%Z) us = Some s ->
  flat_map (fun u => if (k =? users_id u)%Z then g u else []) us = g s.
Proof.
  induction us as [|u us IH]; cbn; [discriminate|].
  intros Hnd F. inversion Hnd as [|? ? Hnot Hnd']; subst.
  rewrite (Z.eqb_sym k). destruct (users_id u =? k)%Z eqn:E.
  - inversion F; subst. apply Z.eqb_eq in E. subst k.
    rewrite flat_map_no_key; auto. apply app_nil_r.
  - cbn. rewrite <- IH; auto.
Qed.

Lemma join_names_one us n s r :
  NoDup (map users_id us) ->
  find (fun u => (users_id u =? notes_from_user n)%Z) us = Some s ->
  find (fun u => (users_id u =? notes_to_user n)%Z) us = Some r ->
  join_names us n = [mk_view n (users_display_name s) (users_display_name r)].
Proof.
  intros Hnd Hs Hr. unfold join_names.
  rewrite (flat_map_one_key _ _ _ s Hnd Hs).
  now rewrite (flat_map_one_key _ _ _ r Hnd Hr).
Qed.

Lemma joined_notes us ns uid :
  NoDup (map users_id us) ->
  (forall n, In n ns ->
     existsb (fun r => (users_id r =? notes_from_user n)%Z) us = true
     /\ existsb (fun r => (users_id r =? notes_to_user n)%Z) us = true) ->
  map view_note
      (filter (fun v => involves uid (view_note v)) (flat_map (join_names us) ns))
  = filter (involves uid) ns
  /\ forall v, In v (flat_map (join_names us) ns) ->
       option_map users_display_name
         (find (fun u => (users_id u =? notes_from_user (view_note v))%Z) us)
         = Some (sender_name v)
       /\ option_map users_display_name
            (find (fun u => (users_id u =? notes_to_user (view_note v))%Z) us)
            = Some (receiver_name v).
Proof.
  intros Hnd. induction ns as [|n ns IH]; intros Hfk.
  - split; [reflexivity | intros v []].
  - destruct (Hfk n (or_introl eq_refl)) as [Hf Ht].
    destruct IH as [IH1 IH2]; [intros m Hm; apply Hfk; now right|].
    destruct (existsb_find _ _ Hf) as (s & Hs).
    destruct (existsb_find _ _ Ht) as (r & Hr).
    cbn [flat_map]. rewrite (join_names_one us n s r Hnd Hs Hr). split.
    + cbn. destruct (involves uid n); cbn; now rewrite IH1.
    + intros v [<- | Hv]; [|now apply IH2].
      cbn. now rewrite Hs, Hr.
Qed.

(** *** The users table from one request to the next *)

Lemma same_key_same_row (us : list users_row) a b :
  NoDup (map users_id us) -> In a us -> In b us ->
  users_id a = users_id b -> a = b.
Proof.
  induction us as [|u us IH]; cbn; [easy|].
  intros Hnd Ha Hb E. inversion Hnd as [|? ? Hnot Hnd']; subst.
  destruct Ha as [<- | Ha], Hb as [<- | Hb]; auto.
  - exfalso. apply Hnot. rewrite E. now apply in_map.
  - exfalso. apply Hnot. rewrite <- E. now apply in_map.
Qed.

Lemma relinked_partner a b x :
  users_id b <> users_id a ->
  users_partner_id
    (set_partner (users_id a) (users_id b)
       (set_partner (users_id b) (users_id a) x)) =
  if (users_id x =? users_id a)%Z then Some (users_id b)
  else if (users_id x =? users_id b)%Z then Some (users_id a)
  else users_partner_id x.
Proof.
  intros Hne. unfold set_partner.
  destruct (users_id x =? users_id a)%Z eqn:Ea; cbn.
  - apply Z.eqb_eq in Ea. rewrite Ea.
    assert (E : (users_id a =? users_id b)%Z = false) by (apply Z.eqb_neq; congruence).
    now rewrite E.
  - now destruct (users_id x =? users_id b)%Z.
Qed.

Lemma relinked_rows d d' a b :
  users_id b <> users_id a ->
  users d' = map (set_partner (users_id a) (users_id b))
                 (map (set_partner (users_id b) (users_id a)) (users d)) ->
  forall x', In x' (users d') ->
    exists x, In x (users d) /\ users_id x' = users_id x
              /\ users_partner_id x' =
                 if (users_id x =? users_id a)%Z then Some (users_id b)
                 else if (users_id x =? users_id b)%Z then Some (users_id a)
                 else users_partner_id x.
Proof.
  intros Hne Hu x' Hx'. rewrite Hu in Hx'.
  apply in_map_iff in Hx' as (x1 & <- & Hx1).
  apply in_map_iff in Hx1 as (x & <- & Hx).
  exists x. split; auto. split.
  - now rewrite !set_partner_id.
  - now apply relinked_partner.
Qed.

Lemma users_step_keys e r d d' :
  users_keys d -> users_step e r d d' -> users_keys d'.
Proof.
  intros (Hnd & Hid & Hpid) [Hu Hseq | name pw dn Hfree Hu Hseq
                            | pu uid a b -> Hs Ha Hb Hne Hu Hseq].
  - unfold users_keys. rewrite Hu. repeat split; auto.
    + intros u Hin. specialize (Hid u Hin). lia.
    + intros u pid Hin Hp. specialize (Hpid u pid Hin Hp). lia.
  - unfold users_keys. rewrite Hu, Hseq. repeat split.
    + rewrite map_app. cbn.
      eapply Permutation_NoDup; [apply Permutation_cons_append|].
      constructor; auto. intros Hin. apply in_map_iff in Hin as (u & E & Hin).
      specialize (Hid u Hin). lia.
    + intros u Hin. apply in_app_or in Hin as [Hin | [<- | []]]; cbn; [|lia].
      specialize (Hid u Hin). lia.
    + intros u pid Hin Hp. apply in_app_or in Hin as [Hin | [<- | []]]; [|discriminate].
      specialize (Hpid u pid Hin Hp). lia.
  - pose proof (user_by_id_In _ _ _ Ha) as Hina.
    destruct (user_named_In _ _ _ Hb) as [Hinb _].
    pose proof (relinked_rows d d' a b Hne Hu) as Hmap.
    unfold users_keys. rewrite Hseq. repeat split.
    + rewrite Hu, !map_map.
      erewrite map_ext; [exact Hnd|]. intros x. now rewrite !set_partner_id.
    + intros x' Hx'. destruct (Hmap x' Hx') as (x & Hx & -> & _). auto.
    + intros x' pid Hx' Hp. destruct (Hmap x' Hx') as (x & Hx & _ & E).
      rewrite E in Hp.
      destruct (users_id x =? users_id a)%Z;
        [inversion Hp; subst; auto|].
      destruct (users_id x =? users_id b)%Z;
        [inversion Hp; subst; auto|].
      eauto.
Qed.

Lemma users_step_symmetric e r d d' :
  users_keys d -> symmetric d -> fresh_link e r d -> users_step e r d d' ->
  symmetric d'.
Proof.
  intros (Hnd & Hid & Hpid) Hsym Hfresh [Hu Hseq | name pw dn Hfree Hu Hseq
                                       | pu uid a b -> Hs Ha Hb Hne Hu Hseq].
  - unfold symmetric. now rewrite Hu.
  - unfold symmetric. rewrite Hu. intros x y Hx Hy Hp.
    apply in_app_or in Hx as [Hx | [<- | []]]; [|discriminate].
    apply in_app_or in Hy as [Hy | [<- | []]]; [now apply Hsym|].
    cbn in Hp. specialize (Hpid x _ Hx Hp). lia.
  - pose proof (user_by_id_In _ _ _ Ha) as Hina.
    destruct (user_named_In _ _ _ Hb) as [Hinb _].
    specialize (Hfresh uid a b Hs Ha Hb Hne). cbn in Hfresh.
    pose proof (relinked_rows d d' a b Hne Hu) as Hmap.
    intros x' y' Hx' Hy' Hp.
    destruct (Hmap x' Hx') as (x & Hx & Ex & Px).
    destruct (Hmap y' Hy') as (y & Hy & Ey & Py).
    rewrite Px in Hp. rewrite Py, Ex. rewrite Ey in Hp.
    destruct (users_id x =? users_id a)%Z eqn:Xa.
    { apply Z.eqb_eq in Xa. injection Hp as E.
      assert (Yb : (users_id y =? users_id b)%Z = true) by (apply Z.eqb_eq; congruence).
      assert (Ya : (users_id y =? users_id a)%Z = false) by (apply Z.eqb_neq; congruence).
      rewrite Ya, Yb. congruence. }
    destruct (users_id x =? users_id b)%Z eqn:Xb.
    { apply Z.eqb_eq in Xb. injection Hp as E.
      assert (Ya : (users_id y =? users_id a)%Z = true) by (apply Z.eqb_eq; congruence).
      rewrite Ya. congruence. }
    apply Z.eqb_neq in Xa, Xb.
    pose proof (Hsym x y Hx Hy Hp) as Hyx.
    destruct (users_id y =? users_id a)%Z eqn:Ya.
    { apply Z.eqb_eq in Ya.
      assert (y = a) by (eapply same_key_same_row; eauto). subst y.
      destruct Hfresh as [[Pa _] | [Pa _]]; congruence. }
    destruct (users_id y =? users_id b)%Z eqn:Yb.
    { apply Z.eqb_eq in Yb.
      assert (y = b) by (eapply same_key_same_row; eauto). subst y.
      destruct Hfresh as [[_ Pb] | [_ Pb]]; congruence. }
    exact Hyx.
Qed.

Lemma users_step_inv e r d d' :
  users_inv d -> fresh_link e r d -> users_step e r d d' -> users_inv d'.
Proof.
  intros [K S] F St. split.
  - eapply users_step_keys; eauto.
  - eapply users_step_symmetric; eauto.
Qed.

Lemma users_keys_init : users_keys init_db.
Proof. repeat split; cbn; try easy. constructor. Qed.

Lemma users_inv_init : users_inv init_db.
Proof. split; [apply users_keys_init | intros a b []]. Qed.

(** *** Users are never removed and notes keep pointing at them *)

Lemma users_step_exists e r d d' k :
  users_step e r d d' -> user_exists k d = true -> user_exists k d' = true.
Proof.
  unfold user_exists.
  intros [Hu _ | name pw dn _ Hu _ | pu uid a b _ _ _ _ _ Hu _] H; rewrite Hu.
  - exact H.
  - rewrite existsb_app, H. reflexivity.
  - apply existsb_exists in H as (x & Hx & E). apply existsb_exists.
    exists (set_partner (users_id a) (users_id b)
              (set_partner (users_id b) (users_id a) x)).
    split; [do 2 apply in_map; exact Hx | now rewrite !set_partner_id].
Qed.

Lemma notes_step_refs d d' :
  (forall k, user_exists k d = true -> user_exists k d' = true) ->
  notes_refs_ok d -> notes_step d d' -> notes_refs_ok d'.
Proof.
  intros Hmono Hok [Hn | uid Hn | k f t m now Hf Ht Hn] n Hin; rewrite Hn in Hin.
  - destruct (Hok n Hin). split; auto.
  - apply in_map_iff in Hin as (n0 & <- & Hin).
    destruct (mark_read_ends uid n0) as [-> ->].
    destruct (Hok n0 Hin). split; auto.
  - apply in_app_or in Hin as [Hin | [<- | []]].
    + destruct (Hok n Hin). split; auto.
    + cbn. split; auto.
Qed.



(* ================================================================== *)
(** ** The claims *)
(* ================================================================== *)

Section Properties.

Variable generate_password_hash : string -> string -> string.
Variable check_password_hash : string -> string -> bool.

Abbreviation handle := (handle generate_password_hash check_password_hash).






(** C3.  Linking two distinct existing users either commits both
    updates, after which reading either row shows the other's key as its
    partner, or (when the connection fails at any point) answers with the
    500 page and leaves the database as it was; without a failure it is
    the former. *)
Theorem link_partner_atomic (d : database) (uid now : Z)
    (salt partner_username : string) (fault : option nat) (a b : users_row) :
  user_by_id uid d = Some a ->
  user_named (lower (strip partner_username)) d = Some b ->
  users_id b <> users_id a ->
  let o := handle (mk_env (Some uid) now salt fault)
                  (POST_link_partner partner_username) d in
  let linked :=
    o_resp o = redirect "dashboard"
    /\ o_flashes o = [linked_notice b]
    /\ users (o_db o) =
         map (set_partner (users_id a) (users_id b))
             (map (set_partner (users_id b) (users_id a)) (users d))
    /\ partner_of (users_id a) (o_db o) = Some (Some (users_id b))
    /\ partner_of (users_id b) (o_db o) = Some (Some (users_id a)) in
  (fault = None -> linked)
  /\ (linked \/ (o_resp o = internal_server_error OperationalError /\ o_db o = d)).
Proof.
  intros Ha Hb Hne.
  pose proof (user_by_id_key _ _ _ Ha) as Hid. subst uid.
  destruct (user_named_In _ _ _ Hb) as [Hin _].
  destruct (user_by_id_In_some _ _ Hin) as (b' & Hb').
  pose proof (user_by_id_key _ _ _ Hb') as Hid'.
  assert (Hneq : (users_id b =? users_id a)%Z = false) by now apply Z.eqb_neq.
  assert (Hneq' : (users_id a =? users_id b)%Z = false)
    by (apply Z.eqb_neq; congruence).
  assert (L : forall o : outcome,
             o_resp o = redirect "dashboard" ->
             o_flashes o = [linked_notice b] ->
             users (o_db o) =
               map (set_partner (users_id a) (users_id b))
                   (map (set_partner (users_id b) (users_id a)) (users d)) ->
             o_resp o = redirect "dashboard"
             /\ o_flashes o = [linked_notice b]
             /\ users (o_db o) =
                  map (set_partner (users_id a) (users_id b))
                      (map (set_partner (users_id b) (users_id a)) (users d))
             /\ partner_of (users_id a) (o_db o) = Some (Some (users_id b))
             /\ partner_of (users_id b) (o_db o) = Some (Some (users_id a))).
  { intros o R F U. repeat split; auto.
    - unfold partner_of, user_by_id. rewrite U, !find_id_set_partner.
      unfold user_by_id in Ha. rewrite Ha. cbn.
      unfold set_partner. rewrite Z.eqb_refl. cbn. now rewrite Hneq'.
    - unfold partner_of, user_by_id. rewrite U, !find_id_set_partner.
      unfold user_by_id in Hb'. rewrite Hb'. cbn.
      unfold set_partner. rewrite Hid', Hneq. now rewrite Hid', Z.eqb_refl. }
  cbv zeta.
  destruct d as [us ts ms ns k1 k2 k3 k4].
  destruct fault as [n|]; [split_budget n 7%nat|];
    (split; [try easy | ]);
    first [ right; exec; repeat (first [rewrite Ha | rewrite Hb | rewrite Hneq]; exec);
            split; reflexivity
          | try left; try intros _; apply L;
            exec; repeat (first [rewrite Ha | rewrite Hb | rewrite Hneq]; exec);
            reflexivity ].
Qed.

(** C6.  When no todo with key [tid] belongs to the requesting user (the
    key may not exist at all), toggling and deleting it leave the whole
    database as it was, flash nothing and, barring a connection failure,
    redirect to the dashboard as they always do. *)
Theorem todo_non_owner_noop (d : database) (uid now : Z) (salt : string)
    (tid : Z) (fault : option nat) :
  (forall t, In t (todos d) -> todos_id t = tid -> todos_user_id t <> uid) ->
  let e := mk_env (Some uid) now salt fault in
  let toggled := handle e (GET_todo_toggle tid) d in
  let deleted := handle e (GET_todo_delete tid) d in
  o_db toggled = d /\ o_db deleted = d
  /\ o_flashes toggled = [] /\ o_flashes deleted = []
  /\ (fault = None ->
      o_resp toggled = redirect "dashboard"
      /\ o_resp deleted = redirect "dashboard").
Proof.
  intros Hown. cbv zeta.
  assert (Hfind : forall t, find (fun t => (todos_id t =? tid)%Z) (todos d) = Some t ->
                            (todos_user_id t =? uid)%Z = false).
  { intros t F. apply find_some in F as [Hin E]. apply Z.eqb_eq in E.
    apply Z.eqb_neq. auto. }
  assert (Hdel : filter (fun t => negb ((todos_id t =? tid)%Z && (todos_user_id t =? uid)%Z))
                        (todos d) = todos d).
  { apply filter_all. intros t Hin.
    destruct (todos_id t =? tid)%Z eqn:E; cbn; auto.
    apply Z.eqb_eq in E. apply negb_true_iff, Z.eqb_neq. auto. }
  destruct d as [us ts ms ns k1 k2 k3 k4]. exec_in Hfind. exec_in Hdel.
  destruct fault as [n|]; [split_budget n 4%nat|];
    exec; rewrite ?Hdel;
    try (destruct (find _ ts) as [t|] eqn:F; [rewrite (Hfind t eq_refl)|]; exec);
    repeat split; auto; easy.
Qed.


(** C7.  The dashboard shows the current user's todos and, when a partner
    resolves, the partner's, both through the same query; for every user
    that query returns exactly the user's todos (a permutation of the rows
    with that owner), ordered by [done] ascending and, among equal [done],
    by creation time descending. *)
Theorem dashboard_todos_ordered (d : database) (uid now : Z) (salt : string)
    (user : users_row) :
  user_by_id uid d = Some user ->
  let o := handle (mk_env (Some uid) now salt None) GET_dashboard d in
  let partner := partner_row user d in
  o_resp o = render_dashboard (Some user) partner (todos_for uid d)
               (match partner with
                | Some p => todos_for (users_id p) d
                | None => []
                end)
  /\ forall who,
       Permutation (todos_for who d)
                   (filter (fun t => (todos_user_id t =? who)%Z) (todos d))
       /\ StronglySorted todo_before (todos_for who d).
Proof.
  intros Hu. cbv zeta. split.
  - pose proof (user_by_id_key _ _ _ Hu) as Hid. subst uid.
    unfold partner_row. destruct d as [us ts ms ns k1 k2 k3 k4].
    exec. rewrite Hu. exec.
    destruct (users_partner_id user) as [pid|]; [|reflexivity].
    destruct (pid =? 0)%Z; exec; [reflexivity|].
    destruct (user_by_id pid _); reflexivity.
  - intros who. split; [apply todos_for_perm | apply todos_for_sorted].
Qed.

(** C8.  Provided the users table obeys its primary key and the notes
    their foreign keys, the notes page sets [read] to 1 on every note
    addressed to the current user, whatever it was, and then lists exactly
    the notes the user sent or received (as they are after the marking),
    newest first, each with the display names stored for its sender and
    receiver. *)
Theorem notes_page_marks_and_lists (d : database) (uid now : Z) (salt : string)
    (user : users_row) :
  user_by_id uid d = Some user ->
  NoDup (map users_id (users d)) ->
  notes_refs_ok d ->
  let o := handle (mk_env (Some uid) now salt None) GET_notes d in
  notes (o_db o) = map (mark_read uid) (notes d)
  /\ (forall n, In n (notes (o_db o)) -> notes_to_user n = uid -> notes_read n = 1)
  /\ users (o_db o) = users d
  /\ exists listing,
       o_resp o = render_notes (Some user) (partner_row user d) listing
       /\ Permutation (map view_note listing)
                      (filter (involves uid) (notes (o_db o)))
       /\ StronglySorted newer_first listing
       /\ Forall (names_ok d) listing.
Proof.
  intros Hu Hnd Hfk. cbv zeta.
  pose proof (user_by_id_key _ _ _ Hu) as Hid. subst uid.
  set (uid := users_id user) in *.
  assert (Hfk' : forall n, In n (map (mark_read uid) (notes d)) ->
            existsb (fun r => (users_id r =? notes_from_user n)%Z) (users d) = true
            /\ existsb (fun r => (users_id r =? notes_to_user n)%Z) (users d) = true).
  { intros n Hn. apply in_map_iff in Hn as (m & <- & Hm).
    destruct (mark_read_ends uid m) as [-> ->]. now apply Hfk. }
  destruct (joined_notes (users d) (map (mark_read uid) (notes d)) uid Hnd Hfk')
    as [J1 J2].
  assert (R : o_db (handle (mk_env (Some uid) now salt None) GET_notes d)
              = set_notes (map (mark_read uid) (notes d)) d
              /\ o_resp (handle (mk_env (Some uid) now salt None) GET_notes d)
                 = render_notes (Some user) (partner_row user d)
                     (notes_for uid (set_notes (map (mark_read uid) (notes d)) d))).
  { unfold partner_row. clear - Hu. subst uid.
    destruct d as [us ts ms ns k1 k2 k3 k4].
    exec. rewrite Hu. exec.
    destruct (users_partner_id user) as [pid|]; [|split; reflexivity].
    destruct (pid =? 0)%Z; exec; [split; reflexivity|].
    destruct (user_by_id pid _); split; reflexivity. }
  destruct R as [Rdb Rresp]. rewrite Rdb, Rresp.
  split; [reflexivity|]. split; [|split; [reflexivity|]].
  - cbn. intros n Hn Hto. apply in_map_iff in Hn as (m & <- & Hm).
    apply mark_read_read. destruct (mark_read_ends uid m) as [_ E]. now rewrite <- E.
  - eexists. split; [reflexivity|]. unfold notes_for. cbn [users notes set_notes].
    split; [|split].
    + rewrite <- J1. apply Permutation_map. symmetry. apply order_by_perm.
    + eapply StronglySorted_impl;
        [|apply (order_by_sorted notes_order notes_order_total notes_order_trans)].
      intros a b. unfold notes_order, newer_first. lia.
    + apply Forall_forall. intros v Hv.
      apply (Permutation_in _ (Permutation_sym (order_by_perm notes_order _))) in Hv.
      apply filter_In in Hv as [Hv _]. apply J2 in Hv. exact Hv.
Qed.

(** Whatever the request, the cookie and the point of failure, the users
    table is left alone, gains one unlinked row with a fresh key, or has
    two of its rows linked to each other. *)
Lemma handle_users_step e r d : users_step e r d (o_db (handle e r d)).
Proof.
  destruct e as [c now salt fault], d as [us ts ms ns k1 k2 k3 k4].
  destruct r;
    (destruct c as [uid|]; (destruct fault as [n|]; [split_budget n 9%nat|]));
    try crunch.
Qed.


Lemma handle_notes_step e r d : notes_step d (o_db (handle e r d)).
Proof.
  destruct e as [c now salt fault], d as [us ts ms ns k1 k2 k3 k4].
  destruct r;
    (destruct c as [uid|]; (destruct fault as [n|]; [split_budget n 9%nat|]));
    exec; repeat (case_scrut; exec); settle_notes.
Qed.

(** The constraints of the schema that the notes page relies on hold in
    every database the application can reach. *)
Lemma reachable_schema d :
  reachable generate_password_hash check_password_hash d ->
  users_keys d /\ notes_refs_ok d.
Proof.
  induction 1 as [|e r d Hr [IHk IHn]].
  - split; [apply users_keys_init | intros n []].
  - pose proof (handle_users_step e r d) as Hu. split.
    + eapply users_step_keys; eauto.
    + eapply notes_step_refs; [|exact IHn|apply handle_notes_step].
      intros k. eapply users_step_exists; eauto.
Qed.

Lemma browse_reachable trace : forall c d,
  reachable generate_password_hash check_password_hash d ->
  reachable generate_password_hash check_password_hash
    (snd (browse generate_password_hash check_password_hash trace c d)).
Proof.
  induction trace as [|[e r] t IH]; cbn; intros c d H; auto.
  apply IH. now constructor.
Qed.

Lemma browse_unlinked trace : forall c d,
  reachable_unlinked generate_password_hash check_password_hash d ->
  fresh_trace generate_password_hash check_password_hash trace c d ->
  reachable_unlinked generate_password_hash check_password_hash
    (snd (browse generate_password_hash check_password_hash trace c d)).
Proof.
  induction trace as [|[e r] t IH]; cbn; intros c d H F; auto.
  destruct F as [F1 F2]. apply IH; auto. now constructor.
Qed.

Lemma reachable_unlinked_inv d :
  reachable_unlinked generate_password_hash check_password_hash d -> users_inv d.
Proof.
  induction 1 as [|e r d Hr IH Hf].
  - apply users_inv_init.
  - eapply users_step_inv; eauto. apply handle_users_step.
Qed.

(** C1 (amended).  From a fresh database, as long as every link request
    that goes through joins two users who are both unlinked (or already
    each other's partner), partner references are mutual after any
    sequence of requests, whatever the cookies, salts, clock values and
    connection failures. *)
Theorem partner_symmetry_without_relinking d :
  reachable_unlinked generate_password_hash check_password_hash d -> symmetric d.
Proof. intros H. now apply reachable_unlinked_inv in H as [_ S]. Qed.

End Properties.

(* ================================================================== *)
(** ** The other routes: what one request can do *)
(* ================================================================== *)

Ltac settle_todos :=
  first
    [ solve [apply ts_same; cbn; [reflexivity | lia]]
    | solve [eapply ts_insert; cbn;
             [ reflexivity | eassumption
             | let E := fresh in
               intros E;
               match goal with
               | H : truthy_str _ = true |- _ => rewrite E in H; discriminate H
               end
             | reflexivity | reflexivity ]]
    | solve [eapply ts_toggle; unfold todo_by_id, flipped; cbn;
             [ reflexivity | eassumption | apply Z.eqb_eq; eassumption
             | match goal with
               | H : (todos_done _ =? 0)%Z = _ |- _ => rewrite H
               end; reflexivity
             | reflexivity ]]
    | solve [eapply ts_delete; cbn; reflexivity] ].

Ltac settle_moods :=
  first
    [ solve [apply ms_same; reflexivity]
    | solve [eapply ms_insert; cbn;
             [ reflexivity | | reflexivity ];
             match goal with
             | H : (_ || _)%bool = false |- _ =>
                 apply orb_false_elim in H; destruct H;
                 unfold int4_min, int4_max in *; lia
             end ] ].

Ltac settle_session :=
  first
    [ solve [left; reflexivity]
    | solve [right; left; split; reflexivity]
    | solve [right; right; do 3 eexists;
             split; [reflexivity|]; split; [eassumption|];
             split; [eassumption | reflexivity]] ].



Section Steps.

Variable generate_password_hash : string -> string -> string.
Variable check_password_hash : string -> string -> bool.

Abbreviation handle := (handle generate_password_hash check_password_hash).

Lemma handle_todos_step e r d : todos_step e d (o_db (handle e r d)).
Proof.
  destruct e as [c now salt fault], d as [us ts ms ns k1 k2 k3 k4].
  destruct r;
    (destruct c as [uid|]; (destruct fault as [n|]; [split_budget n 9%nat|]));
    exec; repeat (case_scrut; exec); settle_todos.
Qed.

Lemma handle_moods_step e r d : moods_step e d (o_db (handle e r d)).
Proof.
  destruct e as [c now salt fault], d as [us ts ms ns k1 k2 k3 k4].
  destruct r;
    (destruct c as [uid|]; (destruct fault as [n|]; [split_budget n 9%nat|]));
    exec; repeat (case_scrut; exec); settle_moods.
Qed.
Lemma handle_session_step e r d :
  let o := handle e r d in
  o_session o = e_session e
  \/ (r = GET_logout /\ o_session o = None)
  \/ (exists username password u,
        r = POST_login username password
        /\ user_named (lower (strip username)) d = Some u
        /\ check_password_hash (users_password u) password = true
        /\ o_session o = Some (users_id u)).
Proof.
  destruct e as [c now salt fault], d as [us ts ms ns k1 k2 k3 k4].
  destruct r;
    (destruct c as [uid|]; (destruct fault as [n|]; [split_budget n 9%nat|]));
    exec; repeat (case_scrut; exec); settle_session.
Qed.

End Steps.

(* ================================================================== *)
(** ** The other routes: lemmas *)
(* ================================================================== *)


(** *** Normal form of usernames *)

Lemma lower_char_idem c : lower_char (lower_char c) = lower_char c.
Proof. destruct c as [[] [] [] [] [] [] [] []]; reflexivity. Qed.

Lemma is_space_lower_char c : is_space (lower_char c) = is_space c.
Proof. destruct c as [[] [] [] [] [] [] [] []]; reflexivity. Qed.

Lemma lower_idem s : lower (lower s) = lower s.
Proof.
  induction s as [|c r IH]; cbn; auto. now rewrite lower_char_idem, IH.
Qed.

Lemma lstrip_lower s : lstrip (lower s) = lower (lstrip s).
Proof.
  induction s as [|c r IH]; cbn; auto.
  rewrite is_space_lower_char. now destruct (is_space c).
Qed.

Lemma rstrip_lower s : rstrip (lower s) = lower (rstrip s).
Proof.
  induction s as [|c r IH]; cbn; auto.
  rewrite IH, is_space_lower_char.
  destruct (rstrip r); cbn; auto. now destruct (is_space c).
Qed.

Lemma strip_lower s : strip (lower s) = lower (strip s).
Proof. unfold strip. now rewrite lstrip_lower, rstrip_lower. Qed.

Lemma lstrip_no_lead s : no_lead (lstrip s).
Proof.
  induction s as [|c r IH]; cbn; auto.
  destruct (is_space c) eqn:E; cbn; auto.
Qed.

Lemma no_lead_lstrip s : no_lead s -> lstrip s = s.
Proof. destruct s as [|c r]; cbn; auto. now intros ->. Qed.

Lemma rstrip_no_lead s : no_lead s -> no_lead (rstrip s).
Proof.
  destruct s as [|c r]; cbn; auto. intros E.
  destruct (rstrip r); cbn; auto. now rewrite E.
Qed.

Lemma rstrip_cons c r :
  rstrip (String c r) =
  match rstrip r with
  | EmptyString => if is_space c then EmptyString else String c EmptyString
  | String a t => String c (String a t)
  end.
Proof. reflexivity. Qed.

Lemma rstrip_idem s : rstrip (rstrip s) = rstrip s.
Proof.
  induction s as [|c r IH]; auto.
  rewrite rstrip_cons.
  destruct (rstrip r) as [|c' r'] eqn:E.
  - destruct (is_space c) eqn:Ec; auto.
    rewrite rstrip_cons. cbn. now rewrite Ec.
  - rewrite rstrip_cons, IH. reflexivity.
Qed.

Lemma strip_idem s : strip (strip s) = strip s.
Proof.
  unfold strip.
  rewrite (no_lead_lstrip (rstrip (lstrip s))).
  - apply rstrip_idem.
  - apply rstrip_no_lead, lstrip_no_lead.
Qed.

Lemma normal_form_idem s : lower (strip (lower (strip s))) = lower (strip s).
Proof. now rewrite strip_lower, strip_idem, lower_idem. Qed.

(** *** The parts of the database a request leaves alone *)

Lemma set_partner_ident pid uid u : user_ident (set_partner pid uid u) = user_ident u.
Proof. unfold set_partner. now destruct (users_id u =? uid)%Z. Qed.

Lemma relinked_ident a b us :
  map user_ident (map (set_partner a b) (map (set_partner b a) us)) = map user_ident us.
Proof.
  rewrite !map_map. apply map_ext. intros u. now rewrite !set_partner_ident.
Qed.

Lemma users_step_ident e r d d' :
  users_step e r d d' ->
  exists l, map user_ident (users d') = (map user_ident (users d) ++ l)%list.
Proof.
  intros [Hu _ | name pw dn _ Hu _ | pu uid a b _ _ _ _ _ Hu _]; rewrite Hu.
  - exists []. now rewrite app_nil_r.
  - eexists. now rewrite map_app.
  - exists []. now rewrite relinked_ident, app_nil_r.
Qed.

Lemma set_partner_username pid uid u :
  users_username (set_partner pid uid u) = users_username u.
Proof. unfold set_partner. now destruct (users_id u =? uid)%Z. Qed.

Lemma relinked_usernames a b us :
  map users_username (map (set_partner a b) (map (set_partner b a) us))
  = map users_username us.
Proof.
  rewrite !map_map. apply map_ext. intros u. now rewrite !set_partner_username.
Qed.

Lemma username_free_not_in name d :
  username_taken name d = false -> ~ In name (map users_username (users d)).
Proof.
  intros H Hin. apply in_map_iff in Hin as (u & E & Hin).
  assert (T : username_taken name d = true) by (apply username_taken_In; eauto).
  congruence.
Qed.

Lemma moods_step_prefix e d d' :
  moods_step e d d' -> exists l, moods d' = (moods d ++ l)%list.
Proof.
  intros [H | uid score note _ _ H]; rewrite H.
  - exists []. now rewrite app_nil_r.
  - eexists. reflexivity.
Qed.

Lemma mark_read_ident uid n : note_ident (mark_read uid n) = note_ident n.
Proof. unfold mark_read. now destruct (notes_to_user n =? uid)%Z. Qed.

Lemma mark_read_keeps uid n : notes_read n = 1 -> notes_read (mark_read uid n) = 1.
Proof. unfold mark_read. now destruct (notes_to_user n =? uid)%Z. Qed.

Lemma notes_step_keeps d d' n :
  notes_step d d' -> In n (notes d) ->
  exists n', In n' (notes d') /\ note_ident n' = note_ident n
             /\ (notes_read n = 1 -> notes_read n' = 1).
Proof.
  intros [H | uid H | k f t m now _ _ H] Hin; rewrite H.
  - exists n. auto.
  - exists (mark_read uid n). split; [now apply in_map|].
    split; [apply mark_read_ident | apply mark_read_keeps].
  - exists n. split; [apply in_or_app; now left | auto].
Qed.

(** *** Todos *)

Lemma same_id_same_todo ts a b :
  NoDup (map todos_id ts) -> In a ts -> In b ts -> todos_id a = todos_id b -> a = b.
Proof.
  induction ts as [|t ts IH]; cbn; [easy|].
  intros Hnd Ha Hb E. inversion Hnd as [|? ? Hnot Hnd']; subst.
  destruct Ha as [<- | Ha], Hb as [<- | Hb]; auto.
  - exfalso. apply Hnot. rewrite E. now apply in_map.
  - exfalso. apply Hnot. rewrite <- E. now apply in_map.
Qed.

Lemma todo_by_id_In tid d t :
  todo_by_id tid d = Some t -> In t (todos d) /\ todos_id t = tid.
Proof.
  unfold todo_by_id. intros H. apply find_some in H as [Hin E].
  split; auto. now apply Z.eqb_eq.
Qed.

Lemma set_done_id v tid t : todos_id (set_done v tid t) = todos_id t.
Proof. unfold set_done. now destruct (todos_id t =? tid)%Z. Qed.

Lemma set_done_other v tid t : todos_id t <> tid -> set_done v tid t = t.
Proof. unfold set_done. intros H. apply Z.eqb_neq in H. now rewrite H. Qed.

Lemma NoDup_map_filter {A B : Type} (f : A -> B) (p : A -> bool) l :
  NoDup (map f l) -> NoDup (map f (filter p l)).
Proof.
  induction l as [|x l IH]; cbn; auto.
  intros H. inversion H as [|? ? Hnot Hnd]; subst.
  destruct (p x); cbn; auto.
  constructor; auto. intros Hin. apply Hnot.
  apply in_map_iff in Hin as (y & E & Hy). apply filter_In in Hy as [Hy _].
  rewrite <- E. now apply in_map.
Qed.

Lemma todos_step_others e d d' t :
  NoDup (map todos_id (todos d)) ->
  todos_step e d d' ->
  In t (todos d) -> e_session e <> Some (todos_user_id t) -> In t (todos d').
Proof.
  intros Hnd [H _ | uid text _ _ _ H _ | uid tid t0 Hs Ht Ho H _ | uid tid Hs H _]
         Hin Hne; rewrite H.
  - exact Hin.
  - apply in_or_app. now left.
  - destruct (todo_by_id_In _ _ _ Ht) as [Hin0 E0].
    rewrite <- (set_done_other (flipped (todos_done t0)) tid t).
    + now apply in_map.
    + intros E. apply Hne. rewrite Hs. f_equal.
      assert (t = t0) by (eapply same_id_same_todo; eauto; congruence).
      congruence.
  - apply filter_In. split; auto.
    apply negb_true_iff, andb_false_iff. right. apply Z.eqb_neq.
    intros E. apply Hne. rewrite Hs. now f_equal.
Qed.

Lemma flipped_bit v : flipped v = 0 \/ flipped v = 1.
Proof. unfold flipped. destruct (v =? 0)%Z; auto. Qed.

Lemma flipped_flipped v : v = 0 \/ v = 1 -> flipped (flipped v) = v.
Proof. intros [-> | ->]; reflexivity. Qed.

Lemma set_done_back v tid t0 ts :
  NoDup (map todos_id ts) ->
  In t0 ts -> todos_id t0 = tid -> todos_done t0 = v ->
  forall w, map (set_done v tid) (map (set_done w tid) ts) = ts.
Proof.
  intros Hnd Hin Hid Hv w. rewrite map_map.
  rewrite <- (map_id ts) at 2. apply map_ext_in. intros t Ht.
  unfold set_done at 2. destruct (todos_id t =? tid)%Z eqn:E.
  - apply Z.eqb_eq in E.
    assert (t = t0) by (eapply same_id_same_todo; eauto; congruence). subst t.
    destruct t0 as [i o x dn c]. cbn in *. subst.
    unfold set_done. cbn. now rewrite Z.eqb_refl.
  - unfold set_done. now rewrite E.
Qed.

Lemma find_set_done w tid ts :
  find (fun t => (todos_id t =? tid)%Z) (map (set_done w tid) ts)
  = option_map (set_done w tid) (find (fun t => (todos_id t =? tid)%Z) ts).
Proof.
  induction ts as [|t ts IH]; cbn; auto.
  rewrite set_done_id. now destruct (todos_id t =? tid)%Z.
Qed.

Lemma todos_step_ok e d d' :
  (forall k, user_exists k d = true -> user_exists k d' = true) ->
  todos_ok d -> todos_step e d d' -> todos_ok d'.
Proof.
  intros Hmono (Hnd & Hall)
         [H Hseq | uid text _ Hex Htext H Hseq | uid tid t0 _ _ _ H Hseq | uid tid _ H Hseq];
    unfold todos_ok; rewrite H.
  - split; auto. intros t Hin. destruct (Hall t Hin) as (A & B & C & D).
    repeat split; auto. lia.
  - rewrite Hseq. split.
    + rewrite map_app. cbn.
      eapply Permutation_NoDup; [apply Permutation_cons_append|].
      constructor; auto. intros Hin. apply in_map_iff in Hin as (t & E & Hin).
      destruct (Hall t Hin) as (A & _). lia.
    + intros t Hin. apply in_app_or in Hin as [Hin | [<- | []]]; cbn.
      * destruct (Hall t Hin) as (A & B & C & D). repeat split; auto. lia.
      * repeat split; auto. lia.
  - rewrite Hseq. split.
    + rewrite map_map. erewrite map_ext; [exact Hnd|].
      intros t. apply set_done_id.
    + intros t' Hin. apply in_map_iff in Hin as (t & <- & Hin).
      destruct (Hall t Hin) as (A & B & C & D).
      unfold set_done. destruct (todos_id t =? tid)%Z; cbn; repeat split; auto.
      apply flipped_bit.
  - rewrite Hseq. split.
    + now apply NoDup_map_filter.
    + intros t Hin. apply filter_In in Hin as [Hin _].
      destruct (Hall t Hin) as (A & B & C & D). repeat split; auto.
Qed.


(** *** Rows found again *)






Lemma prefix_split p s : prefix p s = true -> s = p ++ skip (String.length p) s.
Proof.
  revert s. induction p as [|a p IH]; intros s H; cbn; auto.
  destruct s as [|b s]; cbn in H; [discriminate|].
  destruct (ascii_dec a b) as [<-|]; [|discriminate].
  cbn. f_equal. auto.
Qed.

Ltac settle_usernames :=
  first
    [ solve [left; reflexivity]
    | solve [left; cbn; apply relinked_usernames]
    | solve [right; eexists; split; [eassumption|]; cbn;
             rewrite map_app; reflexivity] ].

(** X24.  The database URL: [postgres://] at the front is replaced by
    [postgresql://] and the rest kept; any other value is kept as it is;
    the result never starts with [postgres://] and normalising it again
    changes nothing. *)
Theorem database_url_scheme (environ rest : string) :
  DATABASE_URL ("postgres://" ++ rest) = "postgresql://" ++ rest
  /\ (prefix "postgres://" environ = false -> DATABASE_URL environ = environ)
  /\ prefix "postgres://" (DATABASE_URL environ) = false
  /\ DATABASE_URL (DATABASE_URL environ) = DATABASE_URL environ.
Proof.
  assert (A : forall t, DATABASE_URL ("postgres://" ++ t) = "postgresql://" ++ t)
    by (intros t; destruct t; reflexivity).
  assert (B : prefix "postgres://" environ = false -> DATABASE_URL environ = environ).
  { intros H. unfold DATABASE_URL. now rewrite H. }
  assert (C : prefix "postgres://" (DATABASE_URL environ) = false).
  { destruct (prefix "postgres://" environ) eqn:E.
    - apply prefix_split in E. rewrite E, A.
      now destruct (skip (String.length "postgres://") environ).
    - now rewrite B. }
  repeat split; auto.
  unfold DATABASE_URL at 1. now rewrite C.
Qed.

Section Extras.

Variable generate_password_hash : string -> string -> string.
Variable check_password_hash : string -> string -> bool.

Abbreviation handle := (handle generate_password_hash check_password_hash).
Abbreviation browse := (browse generate_password_hash check_password_hash).
Abbreviation reachable := (reachable generate_password_hash check_password_hash).
Abbreviation reaches := (reaches generate_password_hash check_password_hash).

(** X1.  Without a session every route behind [login_required] answers
    with a redirect to the login page before it touches the database:
    nothing changes and no database call is made, so not even a dead
    connection shows. *)
Theorem login_required_redirects (r : request) (now : Z) (salt : string)
    (fault : option nat) (d : database) :
  protected r = true ->
  handle (mk_env None now salt fault) r d = mk_outcome (redirect "login") d None [].
Proof. destruct r; intros H; try discriminate H; reflexivity. Qed.



(** X4.  In a browser whose cookie names a stored user (or is empty), the
    cookie names a stored user after any sequence of requests: the row
    [current_user] looks up is always there. *)
Theorem browser_session_is_a_user trace : forall c d,
  session_ok c d ->
  session_ok (fst (browse trace c d)) (snd (browse trace c d)).
Proof.
  induction trace as [|[e r] t IH]; cbn [browse fst snd]; intros c d Hc; auto.
  apply IH.
  assert (Hmono : forall k, user_exists k d = true ->
            user_exists k (o_db (handle (with_session c e) r d)) = true).
  { intros k. eapply users_step_exists. apply handle_users_step. }
  destruct (handle_session_step generate_password_hash check_password_hash
              (with_session c e) r d)
    as [E | [[_ E] | (un & pw & u & _ & Hu & _ & E)]]; rewrite E.
  - cbn [with_session e_session]. destruct c as [uid|]; cbn in *; auto.
  - exact I.
  - cbn. apply Hmono. unfold user_exists. apply existsb_exists.
    destruct (user_named_In _ _ _ Hu) as [Hin _].
    exists u. split; auto. apply Z.eqb_refl.
Qed.


Lemma handle_usernames_step e r d :
  let d' := o_db (handle e r d) in
  map users_username (users d') = map users_username (users d)
  \/ exists raw,
       username_taken (lower (strip raw)) d = false
       /\ map users_username (users d')
          = (map users_username (users d) ++ [lower (strip raw)])%list.
Proof.
  destruct e as [c now salt fault], d as [us ts ms ns k1 k2 k3 k4].
  destruct r;
    (destruct c as [uid|]; (destruct fault as [n|]; [split_budget n 9%nat|]));
    exec; repeat (case_scrut; exec); settle_usernames.
Qed.

(** X6.  In every reachable database the stored usernames are pairwise
    different and in normal form (trimming and lower-casing them changes
    nothing). *)
Theorem reachable_usernames d :
  reachable d ->
  NoDup (map users_username (users d))
  /\ forall u, In u (users d) -> lower (strip (users_username u)) = users_username u.
Proof.
  intros H.
  assert (G : NoDup (map users_username (users d))
              /\ forall name, In name (map users_username (users d)) ->
                              lower (strip name) = name).
  { induction H as [|e r d Hr [IH1 IH2]].
    - split; [constructor | intros name []].
    - destruct (handle_usernames_step e r d) as [E | (raw & Hfree & E)]; rewrite E.
      + split; auto.
      + split.
        * eapply Permutation_NoDup; [apply Permutation_cons_append|].
          constructor; auto. now apply username_free_not_in.
        * intros name Hin. apply in_app_or in Hin as [Hin | [<- | []]]; auto.
          apply normal_form_idem. }
  destruct G as [G1 G2]. split; auto.
  intros u Hin. apply G2. now apply in_map.
Qed.

(** X7.  No sequence of requests removes a user or changes a user's key,
    username, password hash or display name: these columns of the old rows
    are a prefix of the new table's. *)
Theorem users_identity_preserved d d' :
  reaches d d' ->
  exists l, map user_ident (users d') = (map user_ident (users d) ++ l)%list.
Proof.
  induction 1 as [|e r d' _ (l & IH)].
  - exists []. now rewrite app_nil_r.
  - destruct (users_step_ident _ _ _ _ (handle_users_step generate_password_hash check_password_hash e r d')) as (l' & E).
    exists (l ++ l')%list. now rewrite E, IH, app_assoc.
Qed.

Lemma link_partner_users (d : database) (uid now : Z) (salt pu : string)
    (a c : users_row) :
  user_by_id uid d = Some a ->
  user_named (lower (strip pu)) d = Some c ->
  users_id c <> users_id a ->
  users (o_db (handle (mk_env (Some uid) now salt None) (POST_link_partner pu) d))
  = map (set_partner (users_id a) (users_id c))
        (map (set_partner (users_id c) (users_id a)) (users d)).
Proof.
  intros Ha Hc Hne. pose proof (user_by_id_key _ _ _ Ha) as Hid. subst uid.
  apply Z.eqb_neq in Hne.
  destruct d as [us ts ms ns k1 k2 k3 k4].
  exec. rewrite Ha. exec. rewrite Hc. exec. rewrite Hne. reflexivity.
Qed.

(** X8.  When a user whose old partner still points at them links with
    someone else, the old partner's row stays as it is: the database is no
    longer symmetric. *)
Theorem relink_leaves_stale_reference (d : database) (uid now : Z)
    (salt pu : string) (a b c : users_row) :
  user_by_id uid d = Some a ->
  user_named (lower (strip pu)) d = Some c ->
  users_id c <> users_id a ->
  In b (users d) ->
  users_partner_id b = Some (users_id a) ->
  users_id b <> users_id a ->
  users_id b <> users_id c ->
  let d' := o_db (handle (mk_env (Some uid) now salt None) (POST_link_partner pu) d) in
  In b (users d')
  /\ partner_of (users_id a) d' = Some (Some (users_id c))
  /\ ~ symmetric d'.
Proof.
  intros Ha Hc Hca Hb Hpb Hba Hbc. cbv zeta.
  pose proof (link_partner_users d uid now salt pu a c Ha Hc Hca) as U.
  pose proof (user_by_id_key _ _ _ Ha) as K. subst uid.
  set (d' := o_db _) in *.
  set (a' := mk_user (users_id a) (users_username a) (users_password a)
                     (users_display_name a) (Some (users_id c))).
  assert (Eb : set_partner (users_id a) (users_id c)
                 (set_partner (users_id c) (users_id a) b) = b).
  { unfold set_partner. apply Z.eqb_neq in Hba, Hbc. now rewrite Hba, Hbc. }
  assert (Ea : set_partner (users_id a) (users_id c)
                 (set_partner (users_id c) (users_id a) a) = a').
  { unfold set_partner. rewrite Z.eqb_refl. cbn.
    assert (E : (users_id a =? users_id c)%Z = false) by (apply Z.eqb_neq; congruence).
    now rewrite E. }
  assert (Hb' : In b (users d')).
  { rewrite U, <- Eb. now do 2 apply in_map. }
  assert (Ha' : In a' (users d')).
  { rewrite U, <- Ea. do 2 apply in_map. eapply user_by_id_In; eauto. }
  split; [exact Hb'|]. split.
  - unfold partner_of, user_by_id. rewrite U, !find_id_set_partner.
    unfold user_by_id in Ha. rewrite Ha. cbn [option_map].
    now rewrite Ea.
  - intros S. specialize (S b a' Hb' Ha' Hpb). cbn in S. congruence.
Qed.

(** X9.  Adding a todo whose text is empty or whitespace changes nothing
    and makes no database call. *)
Theorem add_todo_blank_is_noop (d : database) (uid now : Z) (salt : string)
    (fault : option nat) (text : string) :
  all_space text = true ->
  handle (mk_env (Some uid) now salt fault) (POST_todo_add text) d
  = mk_outcome (redirect "dashboard") d (Some uid) [].
Proof.
  intros H. exec. rewrite (strip_all_space _ H). reflexivity.
Qed.





Lemma toggle_outcome (d : database) (uid now : Z) (salt : string) (tid : Z)
    (t : todos_row) :
  todo_by_id tid d = Some t ->
  todos_user_id t = uid ->
  handle (mk_env (Some uid) now salt None) (GET_todo_toggle tid) d
  = mk_outcome (redirect "dashboard")
      (mk_db (users d) (map (set_done (flipped (todos_done t)) tid) (todos d))
             (moods d) (notes d)
             (users_id_seq d) (todos_id_seq d) (moods_id_seq d) (notes_id_seq d))
      (Some uid) [].
Proof.
  intros Ht Ho. unfold todo_by_id in Ht. apply Z.eqb_eq in Ho.
  destruct d as [us ts ms ns k1 k2 k3 k4]. exec_in Ht.
  exec. rewrite Ht. exec. rewrite Ho. exec. reflexivity.
Qed.

(** X12.  The owner's toggle turns [done] 0 into 1 and 1 into 0 on that
    todo and leaves the others alone; toggling twice gives back the
    database as it was. *)
Theorem toggle_todo_twice (d : database) (uid now later : Z) (salt : string)
    (tid : Z) (t : todos_row) :
  NoDup (map todos_id (todos d)) ->
  todo_by_id tid d = Some t ->
  todos_user_id t = uid ->
  todos_done t = 0 \/ todos_done t = 1 ->
  let d1 := o_db (handle (mk_env (Some uid) now salt None) (GET_todo_toggle tid) d) in
  let d2 := o_db (handle (mk_env (Some uid) later salt None) (GET_todo_toggle tid) d1) in
  todo_by_id tid d1
  = Some (mk_todo (todos_id t) uid (todos_text t) (1 - todos_done t)
                  (todos_created_at t))
  /\ (forall t', In t' (todos d) -> todos_id t' <> tid -> In t' (todos d1))
  /\ d2 = d.
Proof.
  intros Hnd Ht Ho Hbit. cbv zeta.
  destruct (todo_by_id_In _ _ _ Ht) as [Hin Hid].
  rewrite (toggle_outcome d uid now salt tid t Ht Ho). cbn [o_db].
  set (d1 := mk_db _ _ _ _ _ _ _ _).
  assert (Hflip : flipped (todos_done t) = 1 - todos_done t)
    by (destruct Hbit as [-> | ->]; reflexivity).
  assert (Ht1 : todo_by_id tid d1
                = Some (set_done (flipped (todos_done t)) tid t)).
  { unfold todo_by_id, d1. cbn [todos]. rewrite find_set_done.
    unfold todo_by_id in Ht. now rewrite Ht. }
  assert (Es : set_done (flipped (todos_done t)) tid t
               = mk_todo (todos_id t) uid (todos_text t) (1 - todos_done t)
                         (todos_created_at t)).
  { unfold set_done. rewrite Hid, Z.eqb_refl, Hflip, Ho. reflexivity. }
  split; [now rewrite Ht1, Es|]. split.
  - intros t' Hin' Hne. unfold d1. cbn [todos].
    rewrite <- (set_done_other (flipped (todos_done t)) tid t' Hne).
    now apply in_map.
  - rewrite (toggle_outcome d1 uid later salt tid _ Ht1)
      by (rewrite Es; reflexivity).
    cbn [o_db]. unfold d1. cbn [users todos moods notes users_id_seq
                                 todos_id_seq moods_id_seq notes_id_seq].
    rewrite Es. cbn [todos_done]. rewrite <- Hflip, flipped_flipped by exact Hbit.
    rewrite (set_done_back (todos_done t) tid t (todos d) Hnd Hin Hid eq_refl).
    now destruct d.
Qed.

(** X13.  The owner's delete removes exactly that todo: the table and the
    owner's listing lose it, every other todo stays, no other table
    changes. *)
Theorem delete_todo_removes_own (d : database) (uid now : Z) (salt : string)
    (t : todos_row) :
  NoDup (map todos_id (todos d)) ->
  In t (todos d) ->
  todos_user_id t = uid ->
  let o := handle (mk_env (Some uid) now salt None) (GET_todo_delete (todos_id t)) d in
  o_resp o = redirect "dashboard"
  /\ ~ In t (todos (o_db o))
  /\ ~ In t (todos_for uid (o_db o))
  /\ (forall t', In t' (todos (o_db o)) <-> In t' (todos d) /\ t' <> t)
  /\ users (o_db o) = users d /\ moods (o_db o) = moods d /\ notes (o_db o) = notes d.
Proof.
  intros Hnd Hin Ho. cbv zeta.
  set (keep := fun x : todos_row =>
         negb ((todos_id x =? todos_id t)%Z && (todos_user_id x =? uid)%Z)).
  assert (R : handle (mk_env (Some uid) now salt None) (GET_todo_delete (todos_id t)) d
              = mk_outcome (redirect "dashboard")
                  (mk_db (users d) (filter keep (todos d)) (moods d) (notes d)
                         (users_id_seq d) (todos_id_seq d) (moods_id_seq d)
                         (notes_id_seq d))
                  (Some uid) []).
  { destruct d as [us ts ms ns k1 k2 k3 k4]. reflexivity. }
  rewrite R. cbn [o_resp o_db todos users moods notes].
  assert (Kt : keep t = false).
  { unfold keep. rewrite Z.eqb_refl. apply Z.eqb_eq in Ho. now rewrite Ho. }
  assert (K : forall t', In t' (filter keep (todos d)) <-> In t' (todos d) /\ t' <> t).
  { intros t'. rewrite filter_In. split.
    - intros [Hin' Hk]. split; auto. intros ->. congruence.
    - intros [Hin' Hne]. split; auto. unfold keep.
      destruct (todos_id t' =? todos_id t)%Z eqn:E; auto.
      apply Z.eqb_eq in E. exfalso. apply Hne.
      eapply same_id_same_todo; eauto. }
  assert (N : ~ In t (filter keep (todos d))).
  { intros H. apply K in H. now destruct H. }
  repeat split; auto; try apply K; auto.
  intros H. apply (Permutation_in _ (todos_for_perm _ _)) in H.
  apply filter_In in H as [H _]. cbn [todos] in H. auto.
Qed.

(** X14.  Whatever the request and wherever the connection fails, a todo
    that does not belong to the session user is still in the table,
    unchanged, afterwards. *)
Theorem todos_of_others_untouched e r d t :
  NoDup (map todos_id (todos d)) ->
  In t (todos d) ->
  e_session e <> Some (todos_user_id t) ->
  In t (todos (o_db (handle e r d))).
Proof.
  intros Hnd Hin Hne.
  eapply todos_step_others; eauto. apply handle_todos_step.
Qed.

(** X15.  In every reachable database todo keys are unique, every todo's
    owner exists, its [done] is 0 or 1 and its text is not empty. *)
Theorem reachable_todos_ok d : reachable d -> todos_ok d.
Proof.
  induction 1 as [|e r d Hr IH].
  - split; [constructor | intros t []].
  - eapply todos_step_ok; [|exact IH|apply handle_todos_step].
    intros k. eapply users_step_exists. apply handle_users_step.
Qed.



(** X18.  Moods are append-only: after any sequence of requests the old
    rows are still there, unchanged and in place, at the front of the
    table. *)
Theorem moods_append_only d d' :
  reaches d d' -> exists l, moods d' = (moods d ++ l)%list.
Proof.
  induction 1 as [|e r d' _ (l & IH)].
  - exists []. now rewrite app_nil_r.
  - destruct (moods_step_prefix _ _ _ (handle_moods_step generate_password_hash check_password_hash e r d')) as (l' & E).
    exists (l ++ l')%list. now rewrite E, IH, app_assoc.
Qed.

(** X19.  Sending a note without a partner that resolves, or with an
    empty or whitespace message, changes nothing and flashes nothing. *)
Theorem send_note_noop (d : database) (uid now : Z) (salt message : string)
    (user : users_row) :
  user_by_id uid d = Some user ->
  partner_row user d = None \/ all_space message = true ->
  handle (mk_env (Some uid) now salt None) (POST_notes_send message) d
  = mk_outcome (redirect "notes") d (Some uid) [].
Proof.
  intros Hu H. unfold partner_row in H.
  destruct d as [us ts ms ns k1 k2 k3 k4].
  exec. rewrite Hu. exec.
  destruct (users_partner_id user) as [pid|]; exec.
  - destruct (pid =? 0)%Z; exec.
    + reflexivity.
    + destruct (user_by_id pid _); exec.
      * destruct H as [H | H]; [discriminate|].
        rewrite (strip_all_space _ H). reflexivity.
      * reflexivity.
  - reflexivity.
Qed.





(** X22.  No sequence of requests deletes a note or changes its sender,
    receiver, message or timestamp, and a note that is read stays read. *)
Theorem notes_never_lost d d' n :
  reaches d d' -> In n (notes d) ->
  exists n', In n' (notes d') /\ note_ident n' = note_ident n
             /\ (notes_read n = 1 -> notes_read n' = 1).
Proof.
  induction 1 as [|e r d' _ IH]; intros Hin.
  - exists n. auto.
  - destruct (IH Hin) as (n1 & H1 & I1 & R1).
    destruct (notes_step_keeps _ _ n1 (handle_notes_step generate_password_hash check_password_hash e r d') H1)
      as (n2 & H2 & I2 & R2).
    exists n2. split; auto. split; [congruence | auto].
Qed.


End Extras.

(* ================================================================== *)
(** ** The model at work: sample runs *)
(* ================================================================== *)

Example py_int_samples :
  map py_int [" 42 "; "+7"; "-13"; "1_000"; "007"; "1__0"; "_1"; "1_"; "";
              "4 2"; "- 1"; "0x10"; "12a"; "abc"]
  = [Some 42; Some 7; Some (-13); Some 1000; Some 7; None; None; None; None;
     None; None; None; None; None].
Proof. reflexivity. Qed.

Example normalise_sample : lower (strip "  Alice Smith ") = "alice smith".
Proof. reflexivity. Qed.

(** The scenario of the specification: after Alice and Bob are linked and
    Alice has written, Bob's notes page lists her notes, newest first, and
    they are read afterwards. *)
Example bob_reads_his_notes :
  let o := handle toy_hash toy_check (mk_env (Some 2) 12 "na" None) GET_notes busy_db in
  o_resp o =
    render_notes (Some (bob_row (Some 1))) (Some (alice_row (Some 2)))
      [ mk_view (mk_note 2 1 2 "see you at 8" 1 11) "Alice" "Bob";
        mk_view (mk_note 1 1 2 "hi" 1 10) "Alice" "Bob" ]
  /\ map notes_read (notes (o_db o)) = [1; 1].
Proof. split; reflexivity. Qed.

(** Bob's dashboard shows Alice's todos: open ones first, newest first. *)
Example bob_sees_alices_todos :
  o_resp (handle toy_hash toy_check (mk_env (Some 2) 12 "na" None) GET_dashboard busy_db)
  = render_dashboard (Some (bob_row (Some 1))) (Some (alice_row (Some 2))) []
      [ mk_todo 3 1 "water plants" 0 8;
        mk_todo 1 1 "buy milk" 0 6;
        mk_todo 2 1 "call mum" 1 7 ].
Proof. reflexivity. Qed.

(* ================================================================== *)
(** ** Instances of the claims and counterexamples *)
(* ================================================================== *)

(** C1 as stated fails: Alice links with Bob and then with Carol; Bob's
    row still names Alice while Alice's names Carol. *)
Lemma relinking_breaks_symmetry :
  ~ (forall d, reachable toy_hash toy_check d -> symmetric d).
Proof.
  intros H.
  assert (R : reachable toy_hash toy_check relink_db).
  { apply browse_reachable. constructor. }
  specialize (H relink_db R (bob_row (Some 1)) (alice_row (Some 3))).
  assert (E : users_partner_id (alice_row (Some 3)) = Some (users_id (bob_row (Some 1)))).
  { apply H; [vm_compute; auto | vm_compute; auto | reflexivity]. }
  discriminate E.
Qed.

Lemma partner_symmetry_without_relinking_witness :
  reachable_unlinked toy_hash toy_check link_db /\ symmetric link_db.
Proof.
  assert (R : reachable_unlinked toy_hash toy_check link_db).
  { apply browse_unlinked; [constructor|].
    cbn [fresh_trace link_trace signup_trace app at_time fresh_link].
    repeat (split; [exact I|]). split; [|exact I].
    intros uid a b Hs Ha Hb _.
    vm_compute in Hs. injection Hs as <-.
    vm_compute in Ha, Hb. injection Ha as <-. injection Hb as <-.
    left. split; reflexivity. }
  pose proof (partner_symmetry_without_relinking toy_hash toy_check link_db R) as S.
  split; [exact R | exact S].
Defined.



Lemma link_partner_atomic_witness :
  user_by_id 1 signup_db = Some (alice_row None)
  /\ user_named (lower (strip "Bob")) signup_db = Some (bob_row None)
  /\ users_id (bob_row None) <> users_id (alice_row None)
  /\ partner_of 1 (o_db (handle toy_hash toy_check (mk_env (Some 1) 5 "na" None)
                                (POST_link_partner "Bob") signup_db)) = Some (Some 2)
  /\ partner_of 2 (o_db (handle toy_hash toy_check (mk_env (Some 1) 5 "na" None)
                                (POST_link_partner "Bob") signup_db)) = Some (Some 1).
Proof.
  assert (Ha : user_by_id 1 signup_db = Some (alice_row None)) by reflexivity.
  assert (Hb : user_named (lower (strip "Bob")) signup_db = Some (bob_row None))
    by reflexivity.
  assert (Hne : users_id (bob_row None) <> users_id (alice_row None))
    by (vm_compute; discriminate).
  pose proof (link_partner_atomic toy_hash toy_check signup_db 1 5 "na" "Bob"
                None (alice_row None) (bob_row None) Ha Hb Hne) as K.
  cbv zeta in K. destruct K as (K & _).
  destruct (K eq_refl) as (_ & _ & _ & Pa & Pb).
  split; [exact Ha|]. split; [exact Hb|]. split; [exact Hne|].
  split; [exact Pa | exact Pb].
Defined.



Lemma todo_non_owner_noop_witness :
  (forall t, In t (todos busy_db) -> todos_id t = 1 -> todos_user_id t <> 2)
  /\ o_db (handle toy_hash toy_check (mk_env (Some 2) 12 "na" None)
                  (GET_todo_toggle 1) busy_db) = busy_db
  /\ o_db (handle toy_hash toy_check (mk_env (Some 2) 12 "na" None)
                  (GET_todo_delete 1) busy_db) = busy_db.
Proof.
  assert (H : forall t, In t (todos busy_db) -> todos_id t = 1 -> todos_user_id t <> 2).
  { assert (E : todos busy_db =
                [ mk_todo 1 1 "buy milk" 0 6;
                  mk_todo 2 1 "call mum" 1 7;
                  mk_todo 3 1 "water plants" 0 8 ]) by (vm_compute; reflexivity).
    intros t Hin _. rewrite E in Hin.
    destruct Hin as [<- | [<- | [<- | []]]]; cbn; discriminate. }
  pose proof (todo_non_owner_noop toy_hash toy_check busy_db 2 12 "na" 1 None H)
    as K.
  cbv zeta in K. destruct K as (Ht & Hd & _).
  split; [exact H|]. split; [exact Ht | exact Hd].
Defined.

Lemma dashboard_todos_ordered_witness :
  user_by_id 2 busy_db = Some (bob_row (Some 1))
  /\ StronglySorted todo_before (todos_for 1 busy_db).
Proof.
  assert (Hu : user_by_id 2 busy_db = Some (bob_row (Some 1))) by reflexivity.
  pose proof (dashboard_todos_ordered toy_hash toy_check busy_db 2 12 "na"
                (bob_row (Some 1)) Hu) as K.
  cbv zeta in K. destruct K as (_ & K). destruct (K 1) as (_ & S).
  split; [exact Hu | exact S].
Defined.

Lemma notes_page_marks_and_lists_witness :
  user_by_id 2 busy_db = Some (bob_row (Some 1))
  /\ NoDup (map users_id (users busy_db))
  /\ notes_refs_ok busy_db
  /\ notes (o_db (handle toy_hash toy_check (mk_env (Some 2) 12 "na" None)
                         GET_notes busy_db))
     = map (mark_read 2) (notes busy_db).
Proof.
  assert (Hu : user_by_id 2 busy_db = Some (bob_row (Some 1))) by reflexivity.
  assert (Hnd : NoDup (map users_id (users busy_db))).
  { vm_compute. repeat (constructor; [cbn; intuition discriminate|]). constructor. }
  assert (Hfk : notes_refs_ok busy_db).
  { assert (E : notes busy_db =
                [ mk_note 1 1 2 "hi" 0 10;
                  mk_note 2 1 2 "see you at 8" 0 11 ]) by (vm_compute; reflexivity).
    intros n Hin. rewrite E in Hin.
    destruct Hin as [<- | [<- | []]]; split; vm_compute; reflexivity. }
  pose proof (notes_page_marks_and_lists toy_hash toy_check busy_db 2 12 "na"
                (bob_row (Some 1)) Hu Hnd Hfk) as K.
  cbv zeta in K. destruct K as (K & _).
  split; [exact Hu|]. split; [exact Hnd|]. split; [exact Hfk | exact K].
Defined.

(* ================================================================== *)
(** ** Instances for the other routes *)
(* ================================================================== *)

Lemma login_required_redirects_witness :
  protected GET_dashboard = true
  /\ handle toy_hash toy_check (mk_env None 3 "na" (Some 0%nat)) GET_dashboard busy_db
     = mk_outcome (redirect "login") busy_db None [].
Proof.
  assert (H : protected GET_dashboard = true) by reflexivity.
  pose proof (login_required_redirects toy_hash toy_check GET_dashboard 3 "na"
                (Some 0%nat) busy_db H) as K.
  split; [exact H | exact K].
Defined.


Lemma browser_session_is_a_user_witness :
  session_ok None init_db
  /\ session_ok (fst (browse toy_hash toy_check link_trace None init_db))
                (snd (browse toy_hash toy_check link_trace None init_db)).
Proof.
  assert (H : session_ok None init_db) by exact I.
  pose proof (browser_session_is_a_user toy_hash toy_check link_trace None init_db H)
    as K.
  split; [exact H | exact K].
Defined.


Lemma reachable_usernames_witness :
  reachable toy_hash toy_check relink_db
  /\ NoDup (map users_username (users relink_db)).
Proof.
  assert (R : reachable toy_hash toy_check relink_db)
    by (apply browse_reachable; constructor).
  pose proof (reachable_usernames toy_hash toy_check relink_db R) as K.
  destruct K as (K & _).
  split; [exact R | exact K].
Defined.

Lemma users_identity_preserved_witness :
  reaches toy_hash toy_check signup_db
    (o_db (handle toy_hash toy_check (mk_env (Some 1) 5 "na" None)
                  (POST_link_partner "Bob") signup_db))
  /\ exists l,
       map user_ident
         (users (o_db (handle toy_hash toy_check (mk_env (Some 1) 5 "na" None)
                              (POST_link_partner "Bob") signup_db)))
       = (map user_ident (users signup_db) ++ l)%list.
Proof.
  assert (R : reaches toy_hash toy_check signup_db
                (o_db (handle toy_hash toy_check (mk_env (Some 1) 5 "na" None)
                              (POST_link_partner "Bob") signup_db)))
    by (apply reaches_step; apply reaches_refl).
  pose proof (users_identity_preserved toy_hash toy_check _ _ R) as K.
  split; [exact R | exact K].
Defined.

Lemma relink_leaves_stale_reference_witness :
  user_by_id 1 link_db = Some (alice_row (Some 2))
  /\ user_named (lower (strip "carol")) link_db
     = Some (mk_user 3 "carol" "na$secret3" "Carol" None)
  /\ In (bob_row (Some 1)) (users link_db)
  /\ ~ symmetric (o_db (handle toy_hash toy_check (mk_env (Some 1) 6 "na" None)
                               (POST_link_partner "carol") link_db)).
Proof.
  assert (Ha : user_by_id 1 link_db = Some (alice_row (Some 2)))
    by (vm_compute; reflexivity).
  assert (Hc : user_named (lower (strip "carol")) link_db
               = Some (mk_user 3 "carol" "na$secret3" "Carol" None))
    by (vm_compute; reflexivity).
  assert (Hb : In (bob_row (Some 1)) (users link_db)) by (vm_compute; auto).
  pose proof (relink_leaves_stale_reference toy_hash toy_check link_db 1 6 "na"
                "carol" (alice_row (Some 2)) (bob_row (Some 1))
                (mk_user 3 "carol" "na$secret3" "Carol" None)
                Ha Hc ltac:(cbn; discriminate) Hb eq_refl
                ltac:(cbn; discriminate) ltac:(cbn; discriminate)) as K.
  cbv zeta in K. destruct K as (_ & _ & K).
  split; [exact Ha|]. split; [exact Hc|]. split; [exact Hb | exact K].
Defined.

Lemma add_todo_blank_is_noop_witness :
  all_space "   " = true
  /\ handle toy_hash toy_check (mk_env (Some 1) 6 "na" None) (POST_todo_add "   ") link_db
     = mk_outcome (redirect "dashboard") link_db (Some 1) [].
Proof.
  assert (H : all_space "   " = true) by reflexivity.
  pose proof (add_todo_blank_is_noop toy_hash toy_check link_db 1 6 "na" None "   " H)
    as K.
  split; [exact H | exact K].
Defined.



Lemma busy_todo_keys : NoDup (map todos_id (todos busy_db)).
Proof.
  vm_compute. repeat (constructor; [cbn; intuition discriminate|]). constructor.
Qed.

Lemma toggle_todo_twice_witness :
  NoDup (map todos_id (todos busy_db))
  /\ todo_by_id 2 busy_db = Some (mk_todo 2 1 "call mum" 1 7)
  /\ o_db (handle toy_hash toy_check (mk_env (Some 1) 13 "na" None) (GET_todo_toggle 2)
             (o_db (handle toy_hash toy_check (mk_env (Some 1) 12 "na" None)
                           (GET_todo_toggle 2) busy_db)))
     = busy_db.
Proof.
  pose proof busy_todo_keys as H1.
  assert (H2 : todo_by_id 2 busy_db = Some (mk_todo 2 1 "call mum" 1 7))
    by (vm_compute; reflexivity).
  pose proof (toggle_todo_twice toy_hash toy_check busy_db 1 12 13 "na" 2
                (mk_todo 2 1 "call mum" 1 7) H1 H2 eq_refl (or_intror eq_refl)) as K.
  cbv zeta in K. destruct K as (_ & _ & K).
  split; [exact H1|]. split; [exact H2 | exact K].
Defined.

Lemma delete_todo_removes_own_witness :
  NoDup (map todos_id (todos busy_db))
  /\ In (mk_todo 1 1 "buy milk" 0 6) (todos busy_db)
  /\ ~ In (mk_todo 1 1 "buy milk" 0 6)
          (todos (o_db (handle toy_hash toy_check (mk_env (Some 1) 12 "na" None)
                               (GET_todo_delete 1) busy_db))).
Proof.
  pose proof busy_todo_keys as H1.
  assert (H2 : In (mk_todo 1 1 "buy milk" 0 6) (todos busy_db))
    by (vm_compute; auto).
  pose proof (delete_todo_removes_own toy_hash toy_check busy_db 1 12 "na"
                (mk_todo 1 1 "buy milk" 0 6) H1 H2 eq_refl) as K.
  cbv zeta in K. destruct K as (_ & K & _).
  split; [exact H1|]. split; [exact H2 | exact K].
Defined.

Lemma todos_of_others_untouched_witness :
  NoDup (map todos_id (todos busy_db))
  /\ In (mk_todo 1 1 "buy milk" 0 6) (todos busy_db)
  /\ In (mk_todo 1 1 "buy milk" 0 6)
        (todos (o_db (handle toy_hash toy_check (mk_env (Some 2) 12 "na" None)
                             (GET_todo_delete 1) busy_db))).
Proof.
  pose proof busy_todo_keys as H1.
  assert (H2 : In (mk_todo 1 1 "buy milk" 0 6) (todos busy_db))
    by (vm_compute; auto).
  pose proof (todos_of_others_untouched toy_hash toy_check
                (mk_env (Some 2) 12 "na" None) (GET_todo_delete 1) busy_db
                (mk_todo 1 1 "buy milk" 0 6) H1 H2 ltac:(cbn; discriminate)) as K.
  split; [exact H1|]. split; [exact H2 | exact K].
Defined.

Lemma reachable_todos_ok_witness :
  reachable toy_hash toy_check busy_db /\ todos_ok busy_db.
Proof.
  assert (R : reachable toy_hash toy_check busy_db)
    by (apply browse_reachable; constructor).
  pose proof (reachable_todos_ok toy_hash toy_check busy_db R) as K.
  split; [exact R | exact K].
Defined.



Lemma moods_append_only_witness :
  reaches toy_hash toy_check link_db
    (o_db (handle toy_hash toy_check (mk_env (Some 1) 6 "na" None)
                  (POST_mood_log "4" None) link_db))
  /\ exists l,
       moods (o_db (handle toy_hash toy_check (mk_env (Some 1) 6 "na" None)
                           (POST_mood_log "4" None) link_db))
       = (moods link_db ++ l)%list.
Proof.
  assert (R : reaches toy_hash toy_check link_db
                (o_db (handle toy_hash toy_check (mk_env (Some 1) 6 "na" None)
                              (POST_mood_log "4" None) link_db)))
    by (apply reaches_step; apply reaches_refl).
  pose proof (moods_append_only toy_hash toy_check _ _ R) as K.
  split; [exact R | exact K].
Defined.

Lemma send_note_noop_witness :
  user_by_id 1 signup_db = Some (alice_row None)
  /\ partner_row (alice_row None) signup_db = None
  /\ handle toy_hash toy_check (mk_env (Some 1) 6 "na" None) (POST_notes_send "hi")
            signup_db
     = mk_outcome (redirect "notes") signup_db (Some 1) [].
Proof.
  assert (H1 : user_by_id 1 signup_db = Some (alice_row None))
    by (vm_compute; reflexivity).
  assert (H2 : partner_row (alice_row None) signup_db = None) by reflexivity.
  pose proof (send_note_noop toy_hash toy_check signup_db 1 6 "na" "hi"
                (alice_row None) H1 (or_introl H2)) as K.
  split; [exact H1|]. split; [exact H2 | exact K].
Defined.



Lemma notes_never_lost_witness :
  reaches toy_hash toy_check busy_db
    (o_db (handle toy_hash toy_check (mk_env (Some 2) 12 "na" None) GET_notes busy_db))
  /\ In (mk_note 1 1 2 "hi" 0 10) (notes busy_db)
  /\ exists n',
       In n' (notes (o_db (handle toy_hash toy_check (mk_env (Some 2) 12 "na" None)
                                  GET_notes busy_db)))
       /\ note_ident n' = note_ident (mk_note 1 1 2 "hi" 0 10)
       /\ (notes_read (mk_note 1 1 2 "hi" 0 10) = 1 -> notes_read n' = 1).
Proof.
  assert (R : reaches toy_hash toy_check busy_db
                (o_db (handle toy_hash toy_check (mk_env (Some 2) 12 "na" None)
                              GET_notes busy_db)))
    by (apply reaches_step; apply reaches_refl).
  assert (H : In (mk_note 1 1 2 "hi" 0 10) (notes busy_db)) by (vm_compute; auto).
  pose proof (notes_never_lost toy_hash toy_check _ _ _ R H) as K.
  split; [exact R|]. split; [exact H | exact K].
Defined.

